(** * DataLoader2: the iteration orchestrator and its iterator proxy

    A shallow embedding of [torchdata/dataloader2/dataloader2.py]: the
    [DataLoader2] object, the [DataLoader2Iterator] wrapper it hands out, and
    the lifecycle properties that relate them.

    Python objects are mutable; here every method takes the orchestrator
    and returns the orchestrator it leaves behind together with either a
    value or the exception it raised.  An iterator wrapper holds a reference
    to its orchestrator, so it is modelled by its [iterator_id] alone and
    its [__next__] acts on the one orchestrator state. *)

From Stdlib Require Import ZArith List String Ascii Bool Lia.
From Stdlib Require Import DecimalString.
Import ListNotations.

Local Open Scope string_scope.
Local Open Scope list_scope.
Local Open Scope Z_scope.

(** ** Exceptions and results *)

(** The exceptions the module raises or tells apart.  [OtherException] stands
    for any further subclass of [Exception] a graph may raise while it is
    advanced. *)
Inductive exn : Type :=
| StopIteration
| PauseIteration
| RuntimeError (msg : string)
| TypeError (msg : string)
| ValueError (msg : string)
| AttributeError
| AssertionError
| OtherException (name : string).

Inductive result (A : Type) : Type :=
| Ok (a : A)
| Raise (e : exn).

Arguments Ok {A} a.
Arguments Raise {A} e.

Definition bytes : Type := list Byte.byte.

(** [clone] is a deep copy.  Values are immutable here, so a copy is the value
    itself; what matters is that later updates of one field never reach
    another one, which state passing gives for free. *)
Definition clone {A : Type} (x : A) : A := x.

(** ** Collaborators

    The graph, its codec, the seed generator and the reading service are
    imported from other modules.  They are interfaces, and every definition
    below is generic in them. *)

(** A DataPipe graph: it can be wrapped for serialization, encoded and
    decoded, and iterated.  [iter] is [iter(datapipe)] and [next_item] is
    [next(iterator)]: it gives the element or the exception, and the
    iterator afterwards.  A graph is a value: the state of an iteration
    lives in the iterator, and drawing a new iterator starts over. *)
Class DataPipeOps (DataPipe Iter Elem : Type) : Type := {
  wrap_datapipe_for_serialization : DataPipe -> DataPipe;
  serialize_datapipe : option DataPipe -> bytes;
  deserialize_datapipe : bytes -> option DataPipe;
  iter : DataPipe -> Iter;
  next_item : Iter -> Iter * result Elem
}.

(** [SeedGenerator()] and [SeedGenerator.seed(seed=None)]. *)
Class SeedGeneratorOps (SeedGen : Type) : Type := {
  SeedGenerator : SeedGen;
  sg_seed : SeedGen -> option Z -> SeedGen
}.

(** [ReadingServiceInterface], with the two methods that
    [CheckpointableReadingServiceInterface] adds; [is_checkpointable] is the
    [isinstance] test.  A hook may change the service, and
    [initialize_iteration] is handed the seed generator and may draw from
    it.  Hooks return: a reading service whose hook raises is not
    modelled. *)
Class ReadingServiceInterface (RS DataPipe SeedGen : Type) : Type := {
  is_checkpointable : RS -> bool;
  initialize : RS -> DataPipe -> RS * DataPipe;
  initialize_iteration : RS -> SeedGen -> RS * SeedGen * option (DataPipe -> DataPipe);
  finalize_iteration : RS -> RS;
  finalize : RS -> RS;
  checkpoint : RS -> RS * bytes;
  restore : RS -> DataPipe -> bytes -> RS * DataPipe
}.

(** Calls made on the collaborators, in program order (oldest first).  The
    record of them is ghost state: no method reads it. *)
Inductive call : Type :=
| call_seed (seed : option Z)
| call_initialize
| call_restore
| call_initialize_iteration
| call_finalize_iteration
| call_finalize
| call_checkpoint
| call_iter
| call_next.

(** The calls that adapt the graph and draw an iterator from it. *)
Definition is_setup_call (c : call) : bool :=
  match c with
  | call_initialize | call_restore | call_initialize_iteration | call_iter => true
  | _ => false
  end.

Definition Adapter (DataPipe : Type) : Type := DataPipe -> DataPipe.

(** The [datapipe_adapter_fn] argument: absent, an iterable of adapters, or
    one adapter. *)
Inductive adapter_arg (DataPipe : Type) : Type :=
| adapter_iterable (fns : list (Adapter DataPipe))
| adapter_single (fn : Adapter DataPipe).

Arguments adapter_iterable {DataPipe} fns.
Arguments adapter_single {DataPipe} fn.

(** Modelled from the spec: [_UINT64_UPPER_BOUND] is imported from
    [torchdata.dataloader2.random.seed_generator], which is not among the
    sources; the seed domain is the unsigned integers strictly below a fixed
    64-bit upper bound. *)
Definition _UINT64_UPPER_BOUND : Z := 2 ^ 64.

Definition string_of_Z (z : Z) : string := NilZero.string_of_int (Z.to_int z).

Definition newline : string := String (ascii_of_nat 10) EmptyString.

Definition msg_no_datapipe : string :=
  "Please provide datapipe or use load_state_dict to load datapipe from state".

Definition msg_terminated : string :=
  "Cannot iterate over the DataLoader as it has already been shut down".

Definition msg_not_checkpointable : string :=
  "Cannot restore from non-checkpointable reading service".

Definition msg_invalidated : string :=
  ("This iterator has been invalidated because another iterator has been created "
   ++ "from the same DataLoader2." ++ newline
   ++ "This may be caused multiple references to the same DataLoader2. "
   ++ "For feedback regarding this single iterator per DataLoader2 constraint, feel free "
   ++ "to comment on this issue: https://github.com/pytorch/data/issues/45.")%string.

Definition msg_not_an_iterator : string := "'NoneType' object is not an iterator".

Definition msg_already_created : string :=
  ("DataLoaderV2 iterator has already been created, `load_state_dict()` can't be called. "
   ++ "Please create a new dataloader in order to use load state dict.")%string.

Definition msg_seed (seed : Z) : string :=
  ("Expected an uint64 seed, but got " ++ string_of_Z seed ++ ".")%string.

(** The dictionary [state_dict] returns has exactly the keys
    [serialized_datapipe] and [reading_service_state]. *)
Record StateDict : Type := {
  SERIALIZED_DATAPIPE_KEY_NAME : bytes;
  READING_SERVICE_STATE_KEY_NAME : option bytes
}.

Record DataLoader2Iterator : Type := { iterator_id : Z }.

Section Orchestrator.

Context {DataPipe Iter Elem SeedGen RS : Type}.
Context {graph_ops : DataPipeOps DataPipe Iter Elem}.
Context {seed_ops : SeedGeneratorOps SeedGen}.
Context {service_ops : ReadingServiceInterface RS DataPipe SeedGen}.

(** ** The orchestrator *)

Record DataLoader2 : Type := {
  datapipe : option DataPipe;
  _adapted : bool;
  _datapipe_iter : option Iter;
  _reset_iter : bool;
  datapipe_adapter_fns : option (list (Adapter DataPipe));
  reading_service : option RS;
  reading_service_state : option bytes;
  _terminated : bool;
  valid_iterator_id : option Z;
  _datapipe_before_reading_service_adapt : option DataPipe;
  _seed_generator : SeedGen;
  _seed : option Z;
  _reset_seed : bool;
  calls : list call
}.

(** Attribute assignment, one function per attribute that is assigned
    somewhere. *)
Definition with_datapipe (v : option DataPipe) (dl : DataLoader2) : DataLoader2 :=
  {| datapipe := v; _adapted := _adapted dl; _datapipe_iter := _datapipe_iter dl;
     _reset_iter := _reset_iter dl; datapipe_adapter_fns := datapipe_adapter_fns dl;
     reading_service := reading_service dl;
     reading_service_state := reading_service_state dl; _terminated := _terminated dl;
     valid_iterator_id := valid_iterator_id dl;
     _datapipe_before_reading_service_adapt := _datapipe_before_reading_service_adapt dl;
     _seed_generator := _seed_generator dl; _seed := _seed dl;
     _reset_seed := _reset_seed dl; calls := calls dl |}.

Definition with_adapted (v : bool) (dl : DataLoader2) : DataLoader2 :=
  {| datapipe := datapipe dl; _adapted := v; _datapipe_iter := _datapipe_iter dl;
     _reset_iter := _reset_iter dl; datapipe_adapter_fns := datapipe_adapter_fns dl;
     reading_service := reading_service dl;
     reading_service_state := reading_service_state dl; _terminated := _terminated dl;
     valid_iterator_id := valid_iterator_id dl;
     _datapipe_before_reading_service_adapt := _datapipe_before_reading_service_adapt dl;
     _seed_generator := _seed_generator dl; _seed := _seed dl;
     _reset_seed := _reset_seed dl; calls := calls dl |}.

Definition with_datapipe_iter (v : option Iter) (dl : DataLoader2) : DataLoader2 :=
  {| datapipe := datapipe dl; _adapted := _adapted dl; _datapipe_iter := v;
     _reset_iter := _reset_iter dl; datapipe_adapter_fns := datapipe_adapter_fns dl;
     reading_service := reading_service dl;
     reading_service_state := reading_service_state dl; _terminated := _terminated dl;
     valid_iterator_id := valid_iterator_id dl;
     _datapipe_before_reading_service_adapt := _datapipe_before_reading_service_adapt dl;
     _seed_generator := _seed_generator dl; _seed := _seed dl;
     _reset_seed := _reset_seed dl; calls := calls dl |}.

Definition with_reset_iter (v : bool) (dl : DataLoader2) : DataLoader2 :=
  {| datapipe := datapipe dl; _adapted := _adapted dl; _datapipe_iter := _datapipe_iter dl;
     _reset_iter := v; datapipe_adapter_fns := datapipe_adapter_fns dl;
     reading_service := reading_service dl;
     reading_service_state := reading_service_state dl; _terminated := _terminated dl;
     valid_iterator_id := valid_iterator_id dl;
     _datapipe_before_reading_service_adapt := _datapipe_before_reading_service_adapt dl;
     _seed_generator := _seed_generator dl; _seed := _seed dl;
     _reset_seed := _reset_seed dl; calls := calls dl |}.

Definition with_reading_service (v : option RS) (dl : DataLoader2) : DataLoader2 :=
  {| datapipe := datapipe dl; _adapted := _adapted dl; _datapipe_iter := _datapipe_iter dl;
     _reset_iter := _reset_iter dl; datapipe_adapter_fns := datapipe_adapter_fns dl;
     reading_service := v; reading_service_state := reading_service_state dl;
     _terminated := _terminated dl; valid_iterator_id := valid_iterator_id dl;
     _datapipe_before_reading_service_adapt := _datapipe_before_reading_service_adapt dl;
     _seed_generator := _seed_generator dl; _seed := _seed dl;
     _reset_seed := _reset_seed dl; calls := calls dl |}.

Definition with_reading_service_state (v : option bytes) (dl : DataLoader2) : DataLoader2 :=
  {| datapipe := datapipe dl; _adapted := _adapted dl; _datapipe_iter := _datapipe_iter dl;
     _reset_iter := _reset_iter dl; datapipe_adapter_fns := datapipe_adapter_fns dl;
     reading_service := reading_service dl; reading_service_state := v;
     _terminated := _terminated dl; valid_iterator_id := valid_iterator_id dl;
     _datapipe_before_reading_service_adapt := _datapipe_before_reading_service_adapt dl;
     _seed_generator := _seed_generator dl; _seed := _seed dl;
     _reset_seed := _reset_seed dl; calls := calls dl |}.

Definition with_terminated (v : bool) (dl : DataLoader2) : DataLoader2 :=
  {| datapipe := datapipe dl; _adapted := _adapted dl; _datapipe_iter := _datapipe_iter dl;
     _reset_iter := _reset_iter dl; datapipe_adapter_fns := datapipe_adapter_fns dl;
     reading_service := reading_service dl;
     reading_service_state := reading_service_state dl; _terminated := v;
     valid_iterator_id := valid_iterator_id dl;
     _datapipe_before_reading_service_adapt := _datapipe_before_reading_service_adapt dl;
     _seed_generator := _seed_generator dl; _seed := _seed dl;
     _reset_seed := _reset_seed dl; calls := calls dl |}.

Definition with_valid_iterator_id (v : option Z) (dl : DataLoader2) : DataLoader2 :=
  {| datapipe := datapipe dl; _adapted := _adapted dl; _datapipe_iter := _datapipe_iter dl;
     _reset_iter := _reset_iter dl; datapipe_adapter_fns := datapipe_adapter_fns dl;
     reading_service := reading_service dl;
     reading_service_state := reading_service_state dl; _terminated := _terminated dl;
     valid_iterator_id := v;
     _datapipe_before_reading_service_adapt := _datapipe_before_reading_service_adapt dl;
     _seed_generator := _seed_generator dl; _seed := _seed dl;
     _reset_seed := _reset_seed dl; calls := calls dl |}.

Definition with_datapipe_before_reading_service_adapt (v : option DataPipe) (dl : DataLoader2) : DataLoader2 :=
  {| datapipe := datapipe dl; _adapted := _adapted dl; _datapipe_iter := _datapipe_iter dl;
     _reset_iter := _reset_iter dl; datapipe_adapter_fns := datapipe_adapter_fns dl;
     reading_service := reading_service dl;
     reading_service_state := reading_service_state dl; _terminated := _terminated dl;
     valid_iterator_id := valid_iterator_id dl;
     _datapipe_before_reading_service_adapt := v; _seed_generator := _seed_generator dl;
     _seed := _seed dl; _reset_seed := _reset_seed dl; calls := calls dl |}.

Definition with_seed_generator (v : SeedGen) (dl : DataLoader2) : DataLoader2 :=
  {| datapipe := datapipe dl; _adapted := _adapted dl; _datapipe_iter := _datapipe_iter dl;
     _reset_iter := _reset_iter dl; datapipe_adapter_fns := datapipe_adapter_fns dl;
     reading_service := reading_service dl;
     reading_service_state := reading_service_state dl; _terminated := _terminated dl;
     valid_iterator_id := valid_iterator_id dl;
     _datapipe_before_reading_service_adapt := _datapipe_before_reading_service_adapt dl;
     _seed_generator := v; _seed := _seed dl; _reset_seed := _reset_seed dl;
     calls := calls dl |}.

Definition with_seed (v : option Z) (dl : DataLoader2) : DataLoader2 :=
  {| datapipe := datapipe dl; _adapted := _adapted dl; _datapipe_iter := _datapipe_iter dl;
     _reset_iter := _reset_iter dl; datapipe_adapter_fns := datapipe_adapter_fns dl;
     reading_service := reading_service dl;
     reading_service_state := reading_service_state dl; _terminated := _terminated dl;
     valid_iterator_id := valid_iterator_id dl;
     _datapipe_before_reading_service_adapt := _datapipe_before_reading_service_adapt dl;
     _seed_generator := _seed_generator dl; _seed := v; _reset_seed := _reset_seed dl;
     calls := calls dl |}.

Definition with_reset_seed (v : bool) (dl : DataLoader2) : DataLoader2 :=
  {| datapipe := datapipe dl; _adapted := _adapted dl; _datapipe_iter := _datapipe_iter dl;
     _reset_iter := _reset_iter dl; datapipe_adapter_fns := datapipe_adapter_fns dl;
     reading_service := reading_service dl;
     reading_service_state := reading_service_state dl; _terminated := _terminated dl;
     valid_iterator_id := valid_iterator_id dl;
     _datapipe_before_reading_service_adapt := _datapipe_before_reading_service_adapt dl;
     _seed_generator := _seed_generator dl; _seed := _seed dl; _reset_seed := v;
     calls := calls dl |}.

Definition with_calls (v : list call) (dl : DataLoader2) : DataLoader2 :=
  {| datapipe := datapipe dl; _adapted := _adapted dl; _datapipe_iter := _datapipe_iter dl;
     _reset_iter := _reset_iter dl; datapipe_adapter_fns := datapipe_adapter_fns dl;
     reading_service := reading_service dl;
     reading_service_state := reading_service_state dl; _terminated := _terminated dl;
     valid_iterator_id := valid_iterator_id dl;
     _datapipe_before_reading_service_adapt := _datapipe_before_reading_service_adapt dl;
     _seed_generator := _seed_generator dl; _seed := _seed dl;
     _reset_seed := _reset_seed dl; calls := v |}.

(** Record a call on a collaborator. *)
Definition log (c : call) (dl : DataLoader2) : DataLoader2 :=
  with_calls (calls dl ++ [c]) dl.

(** ** Methods as state transformers that may raise *)

Definition M (A : Type) : Type := DataLoader2 -> DataLoader2 * result A.

Definition ret {A : Type} (a : A) : M A := fun dl => (dl, Ok a).

Definition bind {A B : Type} (m : M A) (k : A -> M B) : M B :=
  fun dl =>
    match m dl with
    | (dl', Ok a) => k a dl'
    | (dl', Raise e) => (dl', Raise e)
    end.

Definition assign (f : DataLoader2 -> DataLoader2) : M unit :=
  fun dl => (f dl, Ok tt).

Definition read {A : Type} (f : DataLoader2 -> A) : M A :=
  fun dl => (dl, Ok (f dl)).

Notation "x <- m ;; k" := (bind m (fun x => k))
  (at level 61, m at next level, right associativity).
Notation "m ;; k" := (bind m (fun _ => k))
  (at level 61, right associativity).

(** *** [DataLoader2.__init__] *)

Definition adapter_fns_of (arg : option (adapter_arg DataPipe))
  : option (list (Adapter DataPipe)) :=
  match arg with
  | None => None
  | Some (adapter_iterable fns) => Some fns
  | Some (adapter_single fn) => Some [fn]
  end.

(** [for adapter_fn in fns: dp = adapter_fn(dp)] *)
Definition apply_adapters (fns : list (Adapter DataPipe)) (dp : DataPipe) : DataPipe :=
  fold_left (fun d fn => fn d) fns dp.

Definition adapted_datapipe (fns : option (list (Adapter DataPipe)))
  (dp : option DataPipe) : option DataPipe :=
  match dp, fns with
  | Some d, Some l => Some (apply_adapters l d)
  | _, _ => dp
  end.

Definition __init__ (dp : option DataPipe)
  (datapipe_adapter_fn : option (adapter_arg DataPipe))
  (rs : option RS) : DataLoader2 :=
  let wrapped :=
    match dp with
    | Some d => Some (clone (wrap_datapipe_for_serialization d))
    | None => None
    end in
  let fns := adapter_fns_of datapipe_adapter_fn in
  let adapted := adapted_datapipe fns wrapped in
  {| datapipe := adapted;
     _adapted := false;
     _datapipe_iter := None;
     _reset_iter := true;
     datapipe_adapter_fns := fns;
     reading_service := clone rs;
     reading_service_state := None;
     _terminated := false;
     valid_iterator_id := None;
     _datapipe_before_reading_service_adapt := clone adapted;
     _seed_generator := SeedGenerator;
     _seed := None;
     _reset_seed := true;
     calls := [] |}.

(** *** [DataLoader2.shutdown] *)

(** [self.reading_service.finalize_iteration()] under
    [if self.reading_service is not None]. *)
Definition finalize_iteration_if_present (dl : DataLoader2) : DataLoader2 :=
  match reading_service dl with
  | Some rs => with_reading_service (Some (finalize_iteration rs)) (log call_finalize_iteration dl)
  | None => dl
  end.

(** [finalize_iteration()] and then [finalize()], under the one
    [if self.reading_service is not None] of [shutdown]. *)
Definition finalize_all_if_present (dl : DataLoader2) : DataLoader2 :=
  match reading_service dl with
  | Some rs =>
      with_reading_service (Some (finalize (finalize_iteration rs)))
        (log call_finalize (log call_finalize_iteration dl))
  | None => dl
  end.

(** The body of the [try].  Every attribute exists on a constructed
    orchestrator and the two hooks return, so the [except AttributeError]
    clause has nothing to catch and the method returns [None]. *)
Definition shutdown : M unit :=
  fun dl =>
    let dl1 :=
      if negb (_reset_iter dl)
      then with_datapipe_iter None (with_reset_iter true dl)
      else dl in
    let dl2 :=
      if negb (_terminated dl1)
      then with_terminated true (finalize_all_if_present dl1)
      else dl1 in
    (dl2, Ok tt).

(** *** [DataLoader2.seed] *)

Definition seed (s : Z) : M unit :=
  fun dl =>
    if s >=? _UINT64_UPPER_BOUND
    then (dl, Raise (ValueError (msg_seed s)))
    else (with_reset_seed true (with_seed (Some s) dl), Ok tt).

(** *** [DataLoader2.__iter__] *)

(** Truth value of [self._seed]: [None] and [0] are false. *)
Definition truthy (s : option Z) : bool :=
  match s with
  | Some z => negb (z =? 0)
  | None => false
  end.

Definition seed_generator_seed (s : option Z) (dl : DataLoader2) : DataLoader2 :=
  with_seed_generator (sg_seed (_seed_generator dl) s) (log (call_seed s) dl).

Definition apply_seed : M unit :=
  fun dl =>
    if truthy (_seed dl) then
      if _reset_seed dl
      then (with_reset_seed false (seed_generator_seed (_seed dl) dl), Ok tt)
      else (dl, Ok tt)
    else (seed_generator_seed None dl, Ok tt).

(** The [if not self._adapted and self.reading_service is not None] block.
    [dp] is [self.datapipe], known not to be [None]; the result is
    [self.datapipe] afterwards. *)
Definition adapt (dp : DataPipe) : M DataPipe :=
  fun dl =>
    match reading_service dl with
    | Some rs =>
        if negb (_adapted dl) then
          match reading_service_state dl with
          | None =>
              let '(rs', dp') := initialize rs dp in
              (with_adapted true
                 (with_datapipe (Some dp')
                    (with_reading_service (Some rs') (log call_initialize dl))),
               Ok dp')
          | Some st =>
              if negb (is_checkpointable rs)
              then (dl, Raise (TypeError msg_not_checkpointable))
              else
                let '(rs', dp') := restore rs dp st in
                (with_adapted true
                   (with_datapipe (Some dp')
                      (with_reading_service (Some rs') (log call_restore dl))),
                 Ok dp')
          end
        else (dl, Ok dp)
    | None => (dl, Ok dp)
    end.

(** The second [if self.reading_service is not None] block. *)
Definition start_iteration (dp : DataPipe) : M DataPipe :=
  fun dl =>
    match reading_service dl with
    | Some rs =>
        let '(rs', sg', iter_reset_fn) := initialize_iteration rs (_seed_generator dl) in
        let dl' :=
          with_seed_generator sg'
            (with_reading_service (Some rs') (log call_initialize_iteration dl)) in
        match iter_reset_fn with
        | Some fn => (with_datapipe (Some (fn dp)) dl', Ok (fn dp))
        | None => (dl', Ok dp)
        end
    | None => (dl, Ok dp)
    end.

Definition draw_iterator (dp : DataPipe) : M unit :=
  assign (fun dl =>
    with_reset_iter false (with_datapipe_iter (Some (iter dp)) (log call_iter dl))).

Definition next_iterator_id (dl : DataLoader2) : Z :=
  match valid_iterator_id dl with
  | None => 0
  | Some i => i + 1
  end.

(** What follows the seeding inside [if self._reset_iter]. *)
Definition prepare_iterator (dp : DataPipe) : M unit :=
  dp1 <- adapt dp ;;
  dp2 <- start_iteration dp1 ;;
  draw_iterator dp2.

(** The body of [if self._reset_iter]. *)
Definition new_iteration (dp : DataPipe) : M unit :=
  apply_seed ;;
  prepare_iterator dp.

(** The last two lines: a new id, and a wrapper bound to it. *)
Definition issue_iterator : M DataLoader2Iterator :=
  i <- read next_iterator_id ;;
  assign (with_valid_iterator_id (Some i)) ;;
  ret {| iterator_id := i |}.

Definition __iter__ : M DataLoader2Iterator :=
  fun dl =>
    match datapipe dl with
    | None => (dl, Raise (RuntimeError msg_no_datapipe))
    | Some dp =>
        if _terminated dl then (dl, Raise (RuntimeError msg_terminated))
        else
          ((if _reset_iter dl then new_iteration dp else ret tt) ;;
           issue_iterator) dl
    end.

(** *** [DataLoader2Iterator.__next__] *)

(** [self.iterator_id == self.dataloader.valid_iterator_id] *)
Definition is_valid (self : DataLoader2Iterator) (dl : DataLoader2) : bool :=
  match valid_iterator_id dl with
  | Some v => iterator_id self =? v
  | None => false
  end.

(** [next(self.dataloader._datapipe_iter)]; advancing [None] is a
    [TypeError]. *)
Definition advance : M Elem :=
  fun dl =>
    match _datapipe_iter dl with
    | Some it =>
        let '(it', r) := next_item it in
        (with_datapipe_iter (Some it') (log call_next dl), r)
    | None => (dl, Raise (TypeError msg_not_an_iterator))
    end.

(** The handlers are tried in the order of the source: [PauseIteration],
    [StopIteration], [Exception].  An orchestrator object is always true, so
    the last handler always shuts it down. *)
Definition __next__ (self : DataLoader2Iterator) : M Elem :=
  fun dl =>
    if is_valid self dl then
      match advance (with_reset_iter true dl) with
      | (dl', Ok x) => (dl', Ok x)
      | (dl', Raise PauseIteration) => (dl', Raise StopIteration)
      | (dl', Raise StopIteration) =>
          (finalize_iteration_if_present dl', Raise StopIteration)
      | (dl', Raise e) =>
          match shutdown dl' with
          | (dl'', Ok _) => (dl'', Raise e)
          | (dl'', Raise e') => (dl'', Raise e')
          end
      end
    else (finalize_iteration_if_present dl, Raise (RuntimeError msg_invalidated)).

(** *** [DataLoader2.state_dict], [from_state], [load_state_dict] *)

Definition state_dict : M StateDict :=
  fun dl =>
    let '(dl1, st) :=
      match reading_service dl with
      | Some rs =>
          if is_checkpointable rs then
            let '(rs', b) := checkpoint rs in
            (with_reading_service (Some rs') (log call_checkpoint dl), Some b)
          else (dl, None)
      | None => (dl, None)
      end in
    (dl1,
     Ok {| SERIALIZED_DATAPIPE_KEY_NAME :=
             serialize_datapipe (_datapipe_before_reading_service_adapt dl1);
           READING_SERVICE_STATE_KEY_NAME := st |}).

(** The annotation asks for a checkpointable service; nothing checks it, and
    the constructor it is passed to takes an optional one. *)
Definition from_state (state : StateDict) (rs : option RS) : DataLoader2 :=
  with_reading_service_state (READING_SERVICE_STATE_KEY_NAME state)
    (__init__ (deserialize_datapipe (SERIALIZED_DATAPIPE_KEY_NAME state)) None rs).

Definition load_state_dict (state : StateDict) : M unit :=
  fun dl =>
    match _datapipe_iter dl with
    | Some _ => (dl, Raise (RuntimeError msg_already_created))
    | None =>
        match deserialize_datapipe (SERIALIZED_DATAPIPE_KEY_NAME state) with
        | None => (dl, Raise AssertionError)
        | Some d =>
            let dp :=
              match datapipe_adapter_fns dl with
              | Some fns => apply_adapters fns d
              | None => d
              end in
            (with_datapipe_before_reading_service_adapt (Some (clone dp))
               (with_reading_service_state (READING_SERVICE_STATE_KEY_NAME state)
                  (with_datapipe (Some dp) dl)),
             Ok tt)
        end
    end.

(** ** Programs over one orchestrator

    A client holds one orchestrator and the wrappers it was given.  [run]
    executes a list of method calls; [OpNext k] pulls through the [k]-th
    wrapper handed out so far. *)

Inductive op : Type :=
| OpIter
| OpNext (k : nat)
| OpSeed (s : Z)
| OpShutdown
| OpStateDict
| OpLoadStateDict (state : StateDict).

Record Client : Type := {
  dataloader : DataLoader2;
  issued : list DataLoader2Iterator
}.

Definition step (c : Client) (o : op) : Client :=
  match o with
  | OpIter =>
      match __iter__ (dataloader c) with
      | (dl, Ok it) => {| dataloader := dl; issued := issued c ++ [it] |}
      | (dl, Raise _) => {| dataloader := dl; issued := issued c |}
      end
  | OpNext k =>
      match nth_error (issued c) k with
      | Some it => {| dataloader := fst (__next__ it (dataloader c)); issued := issued c |}
      | None => c
      end
  | OpSeed s => {| dataloader := fst (seed s (dataloader c)); issued := issued c |}
  | OpShutdown => {| dataloader := fst (shutdown (dataloader c)); issued := issued c |}
  | OpStateDict => {| dataloader := fst (state_dict (dataloader c)); issued := issued c |}
  | OpLoadStateDict st =>
      {| dataloader := fst (load_state_dict st (dataloader c)); issued := issued c |}
  end.

Definition run (ops : list op) (c : Client) : Client := fold_left step ops c.

Definition fresh_client (dl : DataLoader2) : Client :=
  {| dataloader := dl; issued := [] |}.

(** [pull n it dl]: [n] successive [next(it)] calls, with what each gave. *)
Fixpoint pull (n : nat) (it : DataLoader2Iterator) (dl : DataLoader2)
  : DataLoader2 * list (result Elem) :=
  match n with
  | O => (dl, [])
  | S n' =>
      let '(dl1, r) := __next__ it dl in
      let '(dl2, rs) := pull n' it dl1 in
      (dl2, r :: rs)
  end.

(** ** Invariants *)

(** A shut-down orchestrator: [_terminated] is set, and so is [_reset_iter]. *)
Definition closed (dl : DataLoader2) : Prop :=
  _terminated dl = true /\ _reset_iter dl = true.

(** The wrappers handed out carry the ids 0, 1, 2, ... in order, and the
    orchestrator's [valid_iterator_id] is the id of the last one. *)
Definition numbered (c : Client) : Prop :=
  (forall k it, nth_error (issued c) k = Some it -> iterator_id it = Z.of_nat k)
  /\ valid_iterator_id (dataloader c)
     = match List.length (issued c) with
       | O => None
       | S n => Some (Z.of_nat n)
       end.

(** An orchestrator without reading service: its graph is never adapted, so
    it is the graph the checkpoint holds. *)
Definition unadapted (dl : DataLoader2) : Prop :=
  reading_service dl = None
  /\ datapipe dl = _datapipe_before_reading_service_adapt dl.

End Orchestrator.

(** ** A concrete graph, seed generator and reading service

    Small executable collaborators, used to run the methods on concrete
    inputs. *)

Module Demo.

(** A graph is the list of what its iterator does, pull after pull: give an
    element, ask for a pause, or fail.  Past the end it is exhausted, and
    stays so. *)
Inductive item : Type :=
| emit (x : Byte.byte)
| pause
| crash.

Definition encode_item (i : item) : bytes :=
  match i with
  | emit x => [Byte.x00; x]
  | pause => [Byte.x01]
  | crash => [Byte.x02]
  end.

Fixpoint decode_items (fuel : nat) (b : bytes) : option (list item) :=
  match fuel with
  | O => None
  | S fuel' =>
      match b with
      | [] => Some []
      | Byte.x00 :: x :: r => option_map (cons (emit x)) (decode_items fuel' r)
      | Byte.x01 :: r => option_map (cons pause) (decode_items fuel' r)
      | Byte.x02 :: r => option_map (cons crash) (decode_items fuel' r)
      | _ => None
      end
  end.

Definition serialize (dp : option (list item)) : bytes :=
  match dp with
  | None => [Byte.xff]
  | Some l => Byte.xfe :: flat_map encode_item l
  end.

Definition deserialize (b : bytes) : option (list item) :=
  match b with
  | Byte.xfe :: r => decode_items (S (List.length r)) r
  | _ => None
  end.

Definition next_of (it : list item) : list item * result Byte.byte :=
  match it with
  | [] => ([], Raise StopIteration)
  | emit x :: r => (r, Ok x)
  | pause :: r => (r, Raise PauseIteration)
  | crash :: r => (r, Raise (OtherException "IOError"))
  end.

#[export] Instance graph : DataPipeOps (list item) (list item) Byte.byte := {
  wrap_datapipe_for_serialization := fun dp => dp;
  serialize_datapipe := serialize;
  deserialize_datapipe := deserialize;
  iter := fun dp => dp;
  next_item := next_of
}.

(** Modelled from the spec: the seed generator is imported from
    [torchdata.dataloader2.random], which is not among the sources.  It holds
    the current root seed and a derivation counter, and can be reseeded, with
    a given seed or with a fresh one; [entropy] is where fresh seeds come
    from. *)
Record seed_gen : Type := {
  root : Z;
  counter : Z;
  entropy : list Z
}.

Definition reseed (g : seed_gen) (s : option Z) : seed_gen :=
  match s with
  | Some z => {| root := z; counter := 0; entropy := entropy g |}
  | None => {| root := hd 0 (entropy g); counter := 0; entropy := tl (entropy g) |}
  end.

(** The next child seed, and the generator after it was drawn. *)
Definition spawn (g : seed_gen) : Z * seed_gen :=
  (root g + counter g,
   {| root := root g; counter := counter g + 1; entropy := entropy g |}).

#[export] Instance seeds : SeedGeneratorOps seed_gen := {
  SeedGenerator := {| root := 0; counter := 0; entropy := [42; 17; 99] |};
  sg_seed := reseed
}.

(** A reading service that records the hooks it is sent.  When [shuffles] is
    set, every iteration draws a child seed and rotates the graph by it. *)
Record service : Type := {
  checkpointable : bool;
  shuffles : bool;
  hooks : list call
}.

Definition saw (c : call) (rs : service) : service :=
  {| checkpointable := checkpointable rs; shuffles := shuffles rs;
     hooks := hooks rs ++ [c] |}.

Definition rotate (k : Z) (dp : list item) : list item :=
  let n := Z.to_nat (k mod Z.max 1 (Z.of_nat (List.length dp))) in
  skipn n dp ++ firstn n dp.

Definition begin_iteration (rs : service) (g : seed_gen)
  : service * seed_gen * option (list item -> list item) :=
  if shuffles rs
  then let '(child, g') := spawn g in
       (saw call_initialize_iteration rs, g', Some (rotate child))
  else (saw call_initialize_iteration rs, g, None).

#[export] Instance backend : ReadingServiceInterface service (list item) seed_gen := {
  is_checkpointable := checkpointable;
  initialize := fun rs dp => (saw call_initialize rs, dp);
  initialize_iteration := begin_iteration;
  finalize_iteration := saw call_finalize_iteration;
  finalize := saw call_finalize;
  checkpoint := fun rs => (saw call_checkpoint rs, [Byte.x2a]);
  restore := fun rs dp _ => (saw call_restore rs, dp)
}.

Definition plain : service :=
  {| checkpointable := false; shuffles := false; hooks := [] |}.

Definition saving : service :=
  {| checkpointable := true; shuffles := false; hooks := [] |}.

Definition shuffling : service :=
  {| checkpointable := true; shuffles := true; hooks := [] |}.

Definition DL : Type := @DataLoader2 (list item) (list item) seed_gen service.

Definition b1 : Byte.byte := Byte.x01.
Definition b2 : Byte.byte := Byte.x02.
Definition b3 : Byte.byte := Byte.x03.

Definition three : list item := [emit b1; emit b2; emit b3].

Definition with_pause : list item := [emit b1; pause; emit b2].

Definition with_crash : list item := [emit b1; crash; emit b2].

(** [DataLoader2(datapipe=g, reading_service=rs)] *)
Definition loader (g : list item) (rs : option service) : DL :=
  __init__ (Some g) None rs.

(** The wrappers an orchestrator hands out first and second. *)
Definition first : DataLoader2Iterator := {| iterator_id := 0 |}.

Definition second : DataLoader2Iterator := {| iterator_id := 1 |}.

(** [it = iter(dl)] *)
Definition started (dl : DL) : DL := fst (__iter__ dl).

(** [it = iter(dl)] followed by [n] pulls through the first wrapper. *)
Definition pulled (n : nat) (dl : DL) : DL := fst (pull n first (started dl)).

(** [dl.seed(s)] *)
Definition seeded (s : Z) (dl : DL) : DL := fst (seed s dl).

End Demo.

(** ** The remaining methods of the orchestrator and its wrapper *)

(** What can be looked up on a DataPipe iterator: [getattr(iterator, name)]
    gives the attribute or raises. *)
Class IteratorAttributes (Iter Attr : Type) : Type := {
  getattr : Iter -> string -> result Attr
}.

Section Housekeeping.

Context {DataPipe Iter Elem SeedGen RS Attr : Type}.
Context {graph_ops : DataPipeOps DataPipe Iter Elem}.
Context {seed_ops : SeedGeneratorOps SeedGen}.
Context {service_ops : ReadingServiceInterface RS DataPipe SeedGen}.
Context {attr_ops : IteratorAttributes Iter Attr}.

(** [DataLoader2.__exit__]: the three arguments are ignored. *)
Definition __exit__ : @M DataPipe Iter SeedGen RS unit := shutdown.

(** [DataLoader2.__del__] *)
Definition __del__ : @M DataPipe Iter SeedGen RS unit := shutdown.

(** [DataLoader2Iterator.__getattr__].  A constructed wrapper always has
    [dataloader] in its [__dict__], so the first test is on
    [_datapipe_iter] alone. *)
Definition __getattr__ (self : DataLoader2Iterator) (name : string)
  (dl : @DataLoader2 DataPipe Iter SeedGen RS) : result Attr :=
  match _datapipe_iter dl with
  | None => Raise AttributeError
  | Some it => getattr it name
  end.

(** The calls that adapt the graph to the reading service. *)
Definition is_adapt_call (c : call) : bool :=
  match c with
  | call_initialize | call_restore => true
  | _ => false
  end.

Definition adaptations (l : list call) : nat := List.length (filter is_adapt_call l).

(** The calls that belong to the start of a session: the seeding, and the
    calls that adapt the graph and draw an iterator. *)
Definition is_start_call (c : call) : bool :=
  match c with
  | call_seed _ => true
  | _ => is_setup_call c
  end.

Definition start_calls (l : list call) : list call := filter is_start_call l.

(** [_adapted] counts the adaptations. *)
Definition adapted_once (dl : @DataLoader2 DataPipe Iter SeedGen RS) : Prop :=
  adaptations (calls dl) = if _adapted dl then 1%nat else 0%nat.

(** While a session is in progress there is an iterator; and once a wrapper
    has been handed out, the iterator is gone only if the orchestrator has
    been shut down. *)
Definition iterator_kept (dl : @DataLoader2 DataPipe Iter SeedGen RS) : Prop :=
  (_reset_iter dl = false -> _datapipe_iter dl <> None)
  /\ (valid_iterator_id dl <> None -> _terminated dl = false ->
      _datapipe_iter dl <> None).

End Housekeeping.

(** ** The S3 connectors: [torchdata/datapipes/iter/load/boto3.py]

    Two DataPipes over an S3 client: one lists the objects under a root, the
    other opens the objects a source names.  The client and [match_masks]
    are imported; they are interfaces here.  Iterating a DataPipe is
    modelled by what a consumer that drains it sees: the items yielded, in
    order, and the exception that ended the iteration, if one did. *)

Module Boto3.

(** *** The [str] operations the module uses *)

(** [s[n:]] *)
Fixpoint drop (n : nat) (s : string) : string :=
  match n, s with
  | O, _ => s
  | S n', String _ r => drop n' r
  | S _, EmptyString => EmptyString
  end.

(** [c in s], for a character [c] *)
Fixpoint contains (c : ascii) (s : string) : bool :=
  match s with
  | EmptyString => false
  | String a r => Ascii.eqb a c || contains c r
  end.

(** [old in s] *)
Fixpoint occurs (old s : string) : bool :=
  match s with
  | EmptyString => prefix old EmptyString
  | String _ r => prefix old s || occurs old r
  end.

(** The text before the first [sep] and the text after it. *)
Fixpoint split_once (sep : ascii) (s : string) : option (string * string) :=
  match s with
  | EmptyString => None
  | String a r =>
      if Ascii.eqb a sep then Some (EmptyString, r)
      else match split_once sep r with
           | Some (x, y) => Some (String a x, y)
           | None => None
           end
  end.

(** [s.split(sep, 1)], for a one-character [sep] *)
Definition split1 (sep : ascii) (s : string) : list string :=
  match split_once sep s with
  | Some (x, y) => [x; y]
  | None => [s]
  end.

Definition msg_not_enough (got : nat) : string :=
  ("not enough values to unpack (expected 2, got "
   ++ string_of_Z (Z.of_nat got) ++ ")")%string.

Definition msg_too_many : string := "too many values to unpack (expected 2)".

(** [a, b = parts] *)
Definition unpack2 (parts : list string) : result (string * string) :=
  match parts with
  | [a; b] => Ok (a, b)
  | [] | [_] => Raise (ValueError (msg_not_enough (List.length parts)))
  | _ => Raise (ValueError msg_too_many)
  end.

(** [s.replace(old, new)] for a non-empty [old]: occurrences are replaced
    from the left and do not overlap.  [skip] counts the characters of a
    matched occurrence still to be passed over. *)
Fixpoint replace_from (old new : string) (skip : nat) (s : string) : string :=
  match s with
  | EmptyString => EmptyString
  | String a r =>
      match skip with
      | S k => replace_from old new k r
      | O =>
          if prefix old s
          then (new ++ replace_from old new (String.length old - 1) r)%string
          else String a (replace_from old new O r)
      end
  end.

Definition replace (old new s : string) : string := replace_from old new O s.

(** *** The collaborators *)

(** The S3 client made by [boto3.client('s3', **kwargs)].
    [list_objects_v2 kwargs bucket prefix] gives the keys under
    [response['Contents']], or [None] when the response has no such entry;
    [get_object kwargs bucket key] gives what [response['Body'].read()]
    returns.  Both may raise. *)
Class S3Client (Kwargs : Type) : Type := {
  list_objects_v2 : Kwargs -> string -> string -> result (option (list string));
  get_object : Kwargs -> string -> string -> result bytes
}.

(** [match_masks(name, masks)] from [torch.utils.data]. *)
Class MaskMatcher (Masks : Type) : Type := {
  match_masks : string -> Masks -> bool
}.

(** What a drained generator gave: the items, and the exception that ended
    it, if any. *)
Definition drained (A : Type) : Type := (list A * option exn)%type.

(** [for x in xs: yield from body(x)] *)
Fixpoint for_each {A B : Type} (body : A -> drained B) (xs : list A) : drained B :=
  match xs with
  | [] => ([], None)
  | x :: r =>
      match body x with
      | (ys, Some e) => (ys, Some e)
      | (ys, None) => let '(zs, e) := for_each body r in (ys ++ zs, e)
      end
  end.

(** The [root] argument: one string, or a sequence of strings (a DataPipe of
    roots is taken by the strings it yields). *)
Inductive root_arg : Type :=
| root_str (root : string)
| root_seq (roots : list string).

Module FileLister.

Section Lister.

Context {Kwargs Masks : Type}.
Context {s3 : S3Client Kwargs}.
Context {matcher : MaskMatcher Masks}.

Record Boto3FileListerIterDataPipe : Type := {
  datapipe : list string;
  masks : Masks;
  kwargs_for_connection : Kwargs
}.

Definition __init__ (root : root_arg) (masks : Masks) (kwargs : Kwargs)
  : Boto3FileListerIterDataPipe :=
  {| datapipe := match root with
                 | root_str r => [r]
                 | root_seq rs => rs
                 end;
     masks := masks;
     kwargs_for_connection := kwargs |}.

(** [f"s3://{bucket}/{file_name}"] *)
Definition listed_path (bucket file_name : string) : string :=
  ("s3://" ++ bucket ++ "/" ++ file_name)%string.

(** [root.replace('s3://', '').split('/', 1)], unpacked *)
Definition bucket_and_prefix (root : string) : result (string * string) :=
  unpack2 (split1 "/" (replace "s3://" "" root)).

(** The body of the outer loop. *)
Definition list_root (self : Boto3FileListerIterDataPipe) (root : string)
  : drained string :=
  match bucket_and_prefix root with
  | Raise e => ([], Some e)
  | Ok (bucket, prefix) =>
      match list_objects_v2 (kwargs_for_connection self) bucket prefix with
      | Raise e => ([], Some e)
      | Ok response =>
          let contents := match response with
                          | Some l => l
                          | None => []
                          end in
          (map (listed_path bucket)
             (filter (fun file_name => match_masks file_name (masks self)) contents),
           None)
      end
  end.

Definition __iter__ (self : Boto3FileListerIterDataPipe) : drained string :=
  for_each (list_root self) (datapipe self).

End Lister.

End FileLister.

Module FileOpener.

Section Opener.

Context {Kwargs OpenKwargs : Type}.
Context {s3 : S3Client Kwargs}.

Record Boto3FileOpenerIterDataPipe : Type := {
  source_datapipe : list string;
  mode : string;
  kwargs_for_open : list OpenKwargs;
  kwargs_for_connection : Kwargs
}.

(** [kwargs_for_open] defaults to the empty dictionary. *)
Definition __init__ (source_datapipe : list string) (mode : string)
  (kwargs_for_open : option (list OpenKwargs)) (kwargs : Kwargs)
  : Boto3FileOpenerIterDataPipe :=
  {| source_datapipe := source_datapipe;
     mode := mode;
     kwargs_for_open := match kwargs_for_open with
                        | Some k => k
                        | None => []
                        end;
     kwargs_for_connection := kwargs |}.

(** [file_uri[5:].split('/', 1)], unpacked *)
Definition bucket_and_key (file_uri : string) : result (string * string) :=
  unpack2 (split1 "/" (drop 5 file_uri)).

(** The body of the loop: the uri and the content of the object. *)
Definition open_uri (self : Boto3FileOpenerIterDataPipe) (file_uri : string)
  : drained (string * bytes) :=
  match bucket_and_key file_uri with
  | Raise e => ([], Some e)
  | Ok (bucket, key) =>
      match get_object (kwargs_for_connection self) bucket key with
      | Raise e => ([], Some e)
      | Ok file_content => ([(file_uri, file_content)], None)
      end
  end.

Definition __iter__ (self : Boto3FileOpenerIterDataPipe) : drained (string * bytes) :=
  for_each (open_uri self) (source_datapipe self).

Definition __len__ (self : Boto3FileOpenerIterDataPipe) : nat :=
  List.length (source_datapipe self).

End Opener.

End FileOpener.

End Boto3.

(** ** More concrete inputs *)

Module Demo2.

Import Demo.

(** The one attribute a demo iterator has: how many pulls it has left. *)
#[export] Instance attributes : IteratorAttributes (list item) nat := {
  getattr := fun it name =>
    if String.eqb name "remaining" then Ok (List.length it) else Raise AttributeError
}.

(** An adapter: one more element at the end of the graph. *)
Definition one_more : Adapter (list item) := fun dp => dp ++ [emit b3].

(** A checkpoint of the three-element graph that holds a reading-service
    state. *)
Definition checkpoint_of_three : StateDict :=
  {| SERIALIZED_DATAPIPE_KEY_NAME := serialize (Some three);
     READING_SERVICE_STATE_KEY_NAME := Some [Byte.x2a] |}.

(** An S3 store with one bucket, [data], and three objects in it; the
    bucket [empty] exists and holds nothing. *)
Definition objects : list (string * bytes) :=
  [("train/a.txt", [Byte.x61]); ("train/b.bin", [Byte.x62]); ("test/c.txt", [Byte.x63])].

Definition listing (bucket pre : string) : result (option (list string)) :=
  if String.eqb bucket "data"
  then Ok (Some (filter (prefix pre) (map fst objects)))
  else if String.eqb bucket "empty" then Ok None
  else Raise (OtherException "NoSuchBucket").

Definition fetch (bucket key : string) : result bytes :=
  if String.eqb bucket "data" then
    match find (fun o => String.eqb (fst o) key) objects with
    | Some o => Ok (snd o)
    | None => Raise (OtherException "NoSuchKey")
    end
  else Raise (OtherException "NoSuchBucket").

#[export] Instance store : Boto3.S3Client unit := {
  Boto3.list_objects_v2 := fun _ => listing;
  Boto3.get_object := fun _ => fetch
}.

(** Masks as a list of accepted names; the empty list accepts every name. *)
#[export] Instance names : Boto3.MaskMatcher (list string) := {
  Boto3.match_masks := fun name masks =>
    match masks with
    | [] => true
    | _ => existsb (String.eqb name) masks
    end
}.

Definition train_lister
  : @Boto3.FileLister.Boto3FileListerIterDataPipe unit (list string) :=
  Boto3.FileLister.__init__ (Boto3.root_str "s3://data/train/") [] tt.

Definition train_opener
  : @Boto3.FileOpener.Boto3FileOpenerIterDataPipe unit unit :=
  Boto3.FileOpener.__init__
    ["s3://data/train/a.txt"; "s3://data/train/b.bin"; "s3://data/missing"; "s3://data/test/c.txt"]
    "r" None tt.

End Demo2.

(** * Properties *)

Section Properties.

Context {DataPipe Iter Elem SeedGen RS : Type}.
Context {graph_ops : DataPipeOps DataPipe Iter Elem}.
Context {seed_ops : SeedGeneratorOps SeedGen}.
Context {service_ops : ReadingServiceInterface RS DataPipe SeedGen}.

Abbreviation Loader := (@DataLoader2 DataPipe Iter SeedGen RS).
Abbreviation Handle := (@Client DataPipe Iter SeedGen RS).

(** Case analysis on whatever a method branches on. *)
Ltac branch :=
  match goal with
  | |- context [match ?x with _ => _ end] =>
      lazymatch x with
      | context [match _ with _ => _ end] => fail
      | _ => destruct x eqn:?
      end
  end.

Ltac branches := repeat (branch; cbn in *; try congruence).

(** ** Which attributes a method leaves alone *)

Lemma finalize_iteration_if_present_fields (dl : Loader) :
  let dl' := finalize_iteration_if_present dl in
  _terminated dl' = _terminated dl /\ _reset_iter dl' = _reset_iter dl
  /\ valid_iterator_id dl' = valid_iterator_id dl
  /\ _datapipe_iter dl' = _datapipe_iter dl
  /\ datapipe dl' = datapipe dl
  /\ _datapipe_before_reading_service_adapt dl'
     = _datapipe_before_reading_service_adapt dl
  /\ reading_service dl' = option_map finalize_iteration (reading_service dl)
  /\ calls dl'
     = calls dl ++ match reading_service dl with
                   | Some _ => [call_finalize_iteration]
                   | None => []
                   end.
Proof.
  unfold finalize_iteration_if_present.
  destruct (reading_service dl) eqn:E; cbn; rewrite ?E, ?app_nil_r; repeat split; reflexivity.
Qed.

Lemma shutdown_returns (dl : Loader) : snd (shutdown dl) = Ok tt.
Proof. reflexivity. Qed.

Lemma shutdown_fields (dl : Loader) :
  let dl' := fst (shutdown dl) in
  _terminated dl' = true /\ _reset_iter dl' = true
  /\ valid_iterator_id dl' = valid_iterator_id dl
  /\ datapipe dl' = datapipe dl
  /\ _datapipe_before_reading_service_adapt dl'
     = _datapipe_before_reading_service_adapt dl
  /\ _datapipe_iter dl' = (if _reset_iter dl then _datapipe_iter dl else None)
  /\ (reading_service dl = None -> reading_service dl' = None).
Proof.
  unfold shutdown, finalize_all_if_present, finalize_iteration_if_present, log.
  destruct (_reset_iter dl) eqn:Er, (_terminated dl) eqn:Et,
    (reading_service dl) eqn:Es; cbn; rewrite ?Er, ?Et, ?Es; cbn; rewrite ?Es; cbn;
    repeat split; auto; discriminate.
Qed.

Lemma shutdown_closed_noop (dl : Loader) : closed dl -> shutdown dl = (dl, Ok tt).
Proof.
  intros [Ht Hr]. unfold shutdown. rewrite Hr. cbn. rewrite Ht. reflexivity.
Qed.

Lemma shutdown_closes (dl : Loader) : closed (fst (shutdown dl)).
Proof. destruct (shutdown_fields dl) as (Ht & Hr & _). split; assumption. Qed.

Lemma iter_terminated (dl : Loader) :
  _terminated dl = true -> exists e, __iter__ dl = (dl, Raise e).
Proof.
  intros Ht. unfold __iter__. destruct (datapipe dl); rewrite ?Ht; eauto.
Qed.

Lemma next_fields (it : DataLoader2Iterator) (dl : Loader) :
  let dl' := fst (__next__ it dl) in
  valid_iterator_id dl' = valid_iterator_id dl
  /\ datapipe dl' = datapipe dl
  /\ _datapipe_before_reading_service_adapt dl'
     = _datapipe_before_reading_service_adapt dl
  /\ (_terminated dl = true -> _terminated dl' = true)
  /\ _reset_iter dl' = (if is_valid it dl then true else _reset_iter dl)
  /\ (reading_service dl = None -> reading_service dl' = None).
Proof.
  unfold __next__, advance, shutdown, finalize_all_if_present,
    finalize_iteration_if_present, log.
  branches; repeat split; cbn; auto; congruence.
Qed.

Lemma next_closed (it : DataLoader2Iterator) (dl : Loader) :
  closed dl -> closed (fst (__next__ it dl)).
Proof.
  intros [Ht Hr].
  destruct (next_fields it dl) as (_ & _ & _ & H1 & H2 & _).
  split; [auto|]. rewrite H2, Hr. destruct (is_valid it dl); reflexivity.
Qed.

Ltac unfold_iter :=
  unfold __iter__, new_iteration, prepare_iterator, issue_iterator, apply_seed, adapt, start_iteration,
    draw_iterator, seed_generator_seed, next_iterator_id, bind, ret, read, assign, log.

Lemma iter_issues (dl dl' : Loader) (it : DataLoader2Iterator) :
  __iter__ dl = (dl', Ok it) ->
  iterator_id it = next_iterator_id dl
  /\ valid_iterator_id dl' = Some (iterator_id it)
  /\ _reset_iter dl' = false
  /\ _terminated dl' = false
  /\ datapipe dl' <> None.
Proof.
  unfold_iter.
  branches; intros H; inversion H; subst; cbn; repeat split; auto; congruence.
Qed.

Lemma iter_fails (dl dl' : Loader) (e : exn) :
  __iter__ dl = (dl', Raise e) ->
  valid_iterator_id dl' = valid_iterator_id dl
  /\ _terminated dl' = _terminated dl
  /\ _reset_iter dl' = _reset_iter dl.
Proof.
  unfold_iter.
  branches; intros H; inversion H; subst; cbn; repeat split; auto.
Qed.

Lemma seed_fields (s : Z) (dl : Loader) :
  let dl' := fst (seed s dl) in
  valid_iterator_id dl' = valid_iterator_id dl
  /\ _terminated dl' = _terminated dl
  /\ _reset_iter dl' = _reset_iter dl
  /\ reading_service dl' = reading_service dl
  /\ datapipe dl' = datapipe dl
  /\ _datapipe_before_reading_service_adapt dl'
     = _datapipe_before_reading_service_adapt dl.
Proof. unfold seed. branches; repeat split; reflexivity. Qed.

Lemma state_dict_fields (dl : Loader) :
  let dl' := fst (state_dict dl) in
  valid_iterator_id dl' = valid_iterator_id dl
  /\ _terminated dl' = _terminated dl
  /\ _reset_iter dl' = _reset_iter dl
  /\ datapipe dl' = datapipe dl
  /\ _datapipe_before_reading_service_adapt dl'
     = _datapipe_before_reading_service_adapt dl
  /\ (reading_service dl = None -> dl' = dl).
Proof.
  unfold state_dict, log. branches; repeat split; auto; congruence.
Qed.

Lemma load_state_dict_fields (st : StateDict) (dl : Loader) :
  let dl' := fst (load_state_dict st dl) in
  valid_iterator_id dl' = valid_iterator_id dl
  /\ _terminated dl' = _terminated dl
  /\ _reset_iter dl' = _reset_iter dl
  /\ reading_service dl' = reading_service dl.
Proof. unfold load_state_dict. branches; repeat split; reflexivity. Qed.

(** ** Invariants of programs *)

Lemma run_app (ops1 ops2 : list op) (c : Handle) :
  run (ops1 ++ ops2) c = run ops2 (run ops1 c).
Proof. apply fold_left_app. Qed.

Lemma run_invariant (P : Handle -> Prop) :
  (forall c o, P c -> P (step c o)) ->
  forall ops c, P c -> P (run ops c).
Proof.
  intros Hstep ops. induction ops as [|o ops IH]; intros c Hc; cbn.
  - assumption.
  - apply IH, Hstep, Hc.
Qed.

Lemma step_closed (c : Handle) (o : op) :
  closed (dataloader c) -> closed (dataloader (step c o)).
Proof.
  intros Hc. destruct o; cbn.
  - destruct Hc as [Ht Hr]. destruct (iter_terminated (dataloader c) Ht) as [e He].
    rewrite He. cbn. split; assumption.
  - destruct (nth_error (issued c) k); cbn; auto using next_closed.
  - destruct (seed_fields s (dataloader c)) as (_ & H1 & H2 & _).
    destruct Hc. split; congruence.
  - apply shutdown_closes.
  - destruct (state_dict_fields (dataloader c)) as (_ & H1 & H2 & _).
    destruct Hc. split; congruence.
  - destruct (load_state_dict_fields state (dataloader c)) as (_ & H1 & H2 & _).
    destruct Hc. split; congruence.
Qed.

Lemma step_numbered (c : Handle) (o : op) : numbered c -> numbered (step c o).
Proof.
  intros [Hids Hlast]. destruct o; cbn [step].
  - destruct (__iter__ (dataloader c)) as [dl' [it|e]] eqn:E.
    + destruct (iter_issues _ _ _ E) as (Hid & Hv & _).
      split; cbn.
      * intros k it' Hk.
        destruct (Nat.lt_ge_cases k (List.length (issued c))) as [Hlt|Hge].
        -- rewrite nth_error_app1 in Hk by assumption. auto.
        -- rewrite nth_error_app2 in Hk by assumption.
           destruct (k - List.length (issued c))%nat as [|m] eqn:Ek; cbn in Hk.
           ++ inversion Hk; subst it'. rewrite Hid. unfold next_iterator_id.
              rewrite Hlast. destruct (List.length (issued c)) eqn:El.
              ** assert (k = 0%nat) by lia. subst k. reflexivity.
              ** lia.
           ++ destruct m; discriminate.
      * rewrite Hv, Hid. unfold next_iterator_id. rewrite Hlast.
        rewrite length_app. cbn.
        destruct (List.length (issued c)) eqn:El; cbn.
        -- reflexivity.
        -- f_equal. rewrite Nat.add_1_r. lia.
    + destruct (iter_fails _ _ _ E) as (Hv & _). split; cbn [dataloader issued fst]; [assumption|congruence].
  - destruct (nth_error (issued c) k) eqn:E; [|split; assumption].
    destruct (next_fields d (dataloader c)) as (Hv & _).
    split; cbn [dataloader issued fst]; [assumption|congruence].
  - destruct (seed_fields s (dataloader c)) as (Hv & _). split; cbn [dataloader issued fst]; [assumption|congruence].
  - destruct (shutdown_fields (dataloader c)) as (_ & _ & Hv & _). split; cbn [dataloader issued fst]; [assumption|congruence].
  - destruct (state_dict_fields (dataloader c)) as (Hv & _). split; cbn [dataloader issued fst]; [assumption|congruence].
  - destruct (load_state_dict_fields state (dataloader c)) as (Hv & _).
    split; cbn [dataloader issued fst]; [assumption|congruence].
Qed.

Lemma init_numbered (dp : option DataPipe) (fns : option (adapter_arg DataPipe))
  (rs : option RS) : numbered (fresh_client (__init__ dp fns rs)).
Proof.
  split; cbn.
  - intros k it Hk. destruct k; discriminate.
  - reflexivity.
Qed.

(** ** Shutdown *)

(** C9: [shutdown] is idempotent.  Once a first [shutdown] has returned,
    whatever the client does next, every further [shutdown] returns normally
    and leaves the orchestrator exactly as it found it: no attribute
    changes, and no call reaches the reading service (the record of calls is
    part of the state). *)
Theorem shutdown_idempotent :
  forall (dl : Loader) (its : list DataLoader2Iterator) (ops : list op),
    let c := run ops {| dataloader := fst (shutdown dl); issued := its |} in
    shutdown (dataloader c) = (dataloader c, Ok tt).
Proof.
  intros dl its ops c. apply shutdown_closed_noop. subst c.
  apply (run_invariant (fun c => closed (dataloader c))).
  - intros c o. apply step_closed.
  - apply shutdown_closes.
Qed.

(** ** Pulling through a wrapper *)

(** A wrapper whose id is not the valid one: no pull, the reading service is
    told to finalize the iteration, and [RuntimeError] is raised. *)
Lemma next_stale (it : DataLoader2Iterator) (dl : Loader) :
  is_valid it dl = false ->
  __next__ it dl
  = (finalize_iteration_if_present dl, Raise (RuntimeError msg_invalidated)).
Proof. intros H. unfold __next__. rewrite H. reflexivity. Qed.

Lemma next_yields (it : DataLoader2Iterator) (dl : Loader) (i i' : Iter) (x : Elem) :
  is_valid it dl = true -> _datapipe_iter dl = Some i -> next_item i = (i', Ok x) ->
  __next__ it dl
  = (with_datapipe_iter (Some i') (log call_next (with_reset_iter true dl)), Ok x).
Proof.
  intros Hv Hi Hn. unfold __next__, advance. rewrite Hv. cbn. rewrite Hi, Hn. reflexivity.
Qed.

Lemma next_paused (it : DataLoader2Iterator) (dl : Loader) (i i' : Iter) :
  is_valid it dl = true -> _datapipe_iter dl = Some i ->
  next_item i = (i', Raise PauseIteration) ->
  __next__ it dl
  = (with_datapipe_iter (Some i') (log call_next (with_reset_iter true dl)),
     Raise StopIteration).
Proof.
  intros Hv Hi Hn. unfold __next__, advance. rewrite Hv. cbn. rewrite Hi, Hn. reflexivity.
Qed.

Lemma next_exhausted (it : DataLoader2Iterator) (dl : Loader) (i i' : Iter) :
  is_valid it dl = true -> _datapipe_iter dl = Some i ->
  next_item i = (i', Raise StopIteration) ->
  __next__ it dl
  = (finalize_iteration_if_present
       (with_datapipe_iter (Some i') (log call_next (with_reset_iter true dl))),
     Raise StopIteration).
Proof.
  intros Hv Hi Hn. unfold __next__, advance. rewrite Hv. cbn. rewrite Hi, Hn. reflexivity.
Qed.

(** Any other exception: [shutdown] runs on the orchestrator as the pull left
    it, that is with [_reset_iter] already set, and the exception is raised
    again. *)
Lemma next_failed (it : DataLoader2Iterator) (dl : Loader) (i i' : Iter) (e : exn) :
  is_valid it dl = true -> _datapipe_iter dl = Some i ->
  next_item i = (i', Raise e) -> e <> StopIteration -> e <> PauseIteration ->
  __next__ it dl
  = (fst (shutdown (with_datapipe_iter (Some i') (log call_next (with_reset_iter true dl)))),
     Raise e).
Proof.
  intros Hv Hi Hn H1 H2. unfold __next__, advance. rewrite Hv. cbn -[shutdown].
  rewrite Hi, Hn. destruct e; try congruence; reflexivity.
Qed.

(** What [shutdown] after a failed pull amounts to: the iterator stays. *)
Lemma next_failed_fields (it : DataLoader2Iterator) (dl : Loader) (i i' : Iter) (e : exn) :
  is_valid it dl = true -> _datapipe_iter dl = Some i ->
  next_item i = (i', Raise e) -> e <> StopIteration -> e <> PauseIteration ->
  let dl' := fst (__next__ it dl) in
  snd (__next__ it dl) = Raise e
  /\ _terminated dl' = true
  /\ _datapipe_iter dl' = Some i'
  /\ (_terminated dl = false ->
      reading_service dl'
      = option_map (fun rs => finalize (finalize_iteration rs)) (reading_service dl)
      /\ calls dl'
         = calls dl ++ call_next ::
             match reading_service dl with
             | Some _ => [call_finalize_iteration; call_finalize]
             | None => []
             end).
Proof.
  intros Hv Hi Hn H1 H2. cbn zeta.
  rewrite (next_failed it dl i i' e Hv Hi Hn H1 H2).
  unfold shutdown, finalize_all_if_present, finalize_iteration_if_present, log. cbn.
  destruct (_terminated dl) eqn:Et; cbn.
  - repeat split; auto; discriminate.
  - destruct (reading_service dl) eqn:Es; cbn; rewrite ?Es; cbn;
      repeat split; auto; rewrite <- ?app_assoc; reflexivity.
Qed.

Lemma is_valid_unchanged (it : DataLoader2Iterator) (dl dl' : Loader) :
  valid_iterator_id dl' = valid_iterator_id dl -> is_valid it dl' = is_valid it dl.
Proof. unfold is_valid. intros ->. reflexivity. Qed.

Lemma is_valid_unique (p q : DataLoader2Iterator) (dl : Loader) :
  is_valid p dl = true -> is_valid q dl = true -> iterator_id p = iterator_id q.
Proof.
  unfold is_valid. destruct (valid_iterator_id dl); [|discriminate].
  intros Hp Hq. apply Z.eqb_eq in Hp, Hq. congruence.
Qed.

(** C1: whatever program a client runs on a newly constructed orchestrator,
    at most one of the wrappers it was handed is valid; and [next] on a
    wrapper that is not valid raises the invalidation [RuntimeError], gives
    no element and does not advance the iterator, and the reading service,
    when there is one, is asked to finalize the iteration. *)
Theorem stale_iterator_is_refused :
  forall (dp : option DataPipe) (fns : option (adapter_arg DataPipe))
         (rs : option RS) (ops : list op),
    let c := run ops (fresh_client (__init__ dp fns rs)) in
    let dl := dataloader c in
    (forall j k p q,
        nth_error (issued c) j = Some p -> nth_error (issued c) k = Some q ->
        is_valid p dl = true -> is_valid q dl = true -> j = k)
    /\ (forall p,
           is_valid p dl = false ->
           snd (__next__ p dl) = Raise (RuntimeError msg_invalidated)
           /\ _datapipe_iter (fst (__next__ p dl)) = _datapipe_iter dl
           /\ reading_service (fst (__next__ p dl))
              = option_map finalize_iteration (reading_service dl)
           /\ calls (fst (__next__ p dl))
              = calls dl ++ match reading_service dl with
                            | Some _ => [call_finalize_iteration]
                            | None => []
                            end).
Proof.
  intros dp fns rs ops c dl. split.
  - assert (Hnum : numbered c).
    { apply (run_invariant numbered); [intros; now apply step_numbered|].
      apply init_numbered. }
    destruct Hnum as [Hids _].
    intros j k p q Hp Hq Vp Vq.
    pose proof (is_valid_unique p q dl Vp Vq) as Heq.
    rewrite (Hids j p Hp), (Hids k q Hq) in Heq. lia.
  - intros p Hp. rewrite (next_stale p dl Hp). cbn [fst snd].
    destruct (finalize_iteration_if_present_fields dl)
      as (_ & _ & _ & Hi & _ & _ & Hs & Hc).
    repeat split; assumption.
Qed.

(** ** The ways a session ends *)

(** C3, as the code has it: when the graph asks for a pause during [next],
    [_reset_iter] is set and the caller sees [StopIteration], but the
    reading service is left alone: [finalize_iteration] is not called. *)
Theorem pause_ends_session_without_finalize :
  forall (it : DataLoader2Iterator) (dl : Loader) (i i' : Iter),
    is_valid it dl = true ->
    _datapipe_iter dl = Some i ->
    next_item i = (i', Raise PauseIteration) ->
    let dl' := fst (__next__ it dl) in
    snd (__next__ it dl) = Raise StopIteration
    /\ _reset_iter dl' = true
    /\ reading_service dl' = reading_service dl
    /\ calls dl' = calls dl ++ [call_next]
    /\ _terminated dl' = _terminated dl.
Proof.
  intros it dl i i' Hv Hi Hn. cbn zeta.
  rewrite (next_paused it dl i i' Hv Hi Hn). cbn. repeat split; reflexivity.
Qed.

Lemma iter_option_map {A : Type} (f : A -> A) (n : nat) (o : option A) :
  option_map (Nat.iter n f) (option_map f o) = option_map (Nat.iter (S n) f) o.
Proof.
  destruct o as [a|]; cbn [option_map]; [|reflexivity].
  f_equal. symmetry. apply Nat.iter_succ_r.
Qed.

(** C10: once the iterator is exhausted, the wrapper that exhausted it is
    still the valid one, and each further [next] on it advances the
    iterator again, raises [StopIteration] again and calls
    [finalize_iteration] again.  The iterator is taken to follow the
    iterator protocol: exhausted, it stays exhausted. *)
Theorem exhausted_iterator_finalizes_again :
  forall (n : nat) (it : DataLoader2Iterator) (dl : Loader) (i i' : Iter),
    is_valid it dl = true ->
    _datapipe_iter dl = Some i ->
    next_item i = (i', Raise StopIteration) ->
    next_item i' = (i', Raise StopIteration) ->
    let dl' := fst (pull (S n) it dl) in
    snd (pull (S n) it dl) = repeat (Raise StopIteration) (S n)
    /\ is_valid it dl' = true
    /\ reading_service dl'
       = option_map (Nat.iter (S n) finalize_iteration) (reading_service dl)
    /\ calls dl'
       = calls dl ++
         List.concat (repeat (call_next :: match reading_service dl with
                                      | Some _ => [call_finalize_iteration]
                                      | None => []
                                      end) (S n)).
Proof.
  induction n as [|n IH]; intros it dl i i' Hv Hi Hn Hfix; cbn zeta.
  - cbn [pull]. rewrite (next_exhausted it dl i i' Hv Hi Hn). cbn [fst snd repeat List.concat].
    destruct (finalize_iteration_if_present_fields
                (with_datapipe_iter (Some i') (log call_next (with_reset_iter true dl))))
      as (_ & _ & Hid & _ & _ & _ & Hs & Hc).
    cbn in Hid, Hs, Hc. rewrite Hs, Hc, app_nil_r, <- app_assoc.
    repeat split; try reflexivity.
    rewrite (is_valid_unchanged it dl _ Hid). exact Hv.
  - change (pull (S (S n)) it dl)
      with (let '(dl1, r) := __next__ it dl in
            let '(dl2, rs) := pull (S n) it dl1 in (dl2, r :: rs)).
    rewrite (next_exhausted it dl i i' Hv Hi Hn).
    set (dl1 := finalize_iteration_if_present
                  (with_datapipe_iter (Some i') (log call_next (with_reset_iter true dl)))).
    destruct (finalize_iteration_if_present_fields
                (with_datapipe_iter (Some i') (log call_next (with_reset_iter true dl))))
      as (_ & _ & Hid & Hit & _ & _ & Hs & Hc).
    fold dl1 in Hid, Hit, Hs, Hc. cbn in Hid, Hit, Hs, Hc.
    assert (Hv1 : is_valid it dl1 = true).
    { rewrite (is_valid_unchanged it dl _ Hid). exact Hv. }
    specialize (IH it dl1 i' i' Hv1 Hit Hfix Hfix). cbn zeta in IH.
    destruct (pull (S n) it dl1) as [dl2 rs] eqn:E. cbn [fst snd] in IH |- *.
    destruct IH as (Hr & Hv2 & Hs2 & Hc2).
    repeat split.
    + rewrite Hr. reflexivity.
    + exact Hv2.
    + rewrite Hs2, Hs. apply iter_option_map.
    + rewrite Hc2, Hc, Hs.
      change (repeat ?x (S (S n))) with (x :: repeat x (S n)).
      cbn [List.concat]. destruct (reading_service dl); cbn [option_map];
        rewrite <- !app_assoc; reflexivity.
Qed.

(** ** Starting a session *)

(** A second [__iter__] while [_reset_iter] is clear only issues a new id. *)
Lemma iter_in_progress (dl : Loader) (dp : DataPipe) :
  datapipe dl = Some dp -> _terminated dl = false -> _reset_iter dl = false ->
  __iter__ dl
  = (with_valid_iterator_id (Some (next_iterator_id dl)) dl,
     Ok {| iterator_id := next_iterator_id dl |}).
Proof.
  intros Hd Ht Hr. unfold __iter__. rewrite Hd, Ht, Hr. reflexivity.
Qed.

(** A reading service, when there is one, has adapted the graph. *)
Lemma iter_settles_adaptation (dl dl1 : Loader) (it : DataLoader2Iterator) :
  __iter__ dl = (dl1, Ok it) -> _reset_iter dl = true ->
  reading_service dl1 = None \/ _adapted dl1 = true.
Proof.
  unfold_iter.
  branches; intros H Hr; inversion H; subst; cbn;
    first [left; congruence | right; reflexivity
          | right; destruct (_adapted dl); [reflexivity|discriminate]].
Qed.

Lemma next_keeps_adaptation (it : DataLoader2Iterator) (dl : Loader) :
  reading_service dl = None \/ _adapted dl = true ->
  reading_service (fst (__next__ it dl)) = None \/ _adapted (fst (__next__ it dl)) = true.
Proof.
  intros [H|H].
  - left. destruct (next_fields it dl) as (_ & _ & _ & _ & _ & Hs). auto.
  - right. rewrite <- H.
    unfold __next__, advance, shutdown, finalize_all_if_present,
      finalize_iteration_if_present, log.
    branches; reflexivity.
Qed.

(** What [__iter__] does when [_reset_iter] is set and the graph needs no
    adaptation any more: the seeding step, the hook of the reading service
    when there is one, and a new iterator drawn from the graph. *)
Lemma iter_new_round (dl : Loader) (dp : DataPipe) :
  datapipe dl = Some dp -> _terminated dl = false -> _reset_iter dl = true ->
  reading_service dl = None \/ _adapted dl = true ->
  exists (dl3 : Loader) (dp3 : DataPipe),
    __iter__ dl = (dl3, Ok {| iterator_id := next_iterator_id dl |})
    /\ datapipe dl3 = Some dp3
    /\ _datapipe_iter dl3 = Some (iter dp3)
    /\ _reset_iter dl3 = false
    /\ calls dl3
       = calls dl
         ++ (if truthy (_seed dl)
             then if _reset_seed dl then [call_seed (_seed dl)] else []
             else [call_seed None])
         ++ match reading_service dl with
            | Some _ => [call_initialize_iteration]
            | None => []
            end
         ++ [call_iter].
Proof.
  intros Hd Ht Hr H. unfold_iter. rewrite Hd, Ht, Hr. cbn.
  destruct (valid_iterator_id dl) eqn:Ev; destruct H as [H|H];
    repeat (branch; cbn in *; rewrite ?H, ?Ev in *; cbn in *;
            try congruence; try discriminate);
    repeat match goal with
           | E : Some _ = Some _ |- _ => inversion E; subst; clear E
           end;
    do 2 eexists; (split; [reflexivity|]); cbn; rewrite ?Hd;
    (split; [reflexivity|]); (split; [reflexivity|]); (split; [reflexivity|]);
    rewrite <- ?app_assoc; reflexivity.
Qed.

(** C2, as the code has it.  After an [__iter__] that started a round the
    flag [_reset_iter] is clear, and it stays clear under [seed] and under
    [next] on a stale wrapper; a second [__iter__] at that point changes
    nothing but [valid_iterator_id], so the seed generator, the reading
    service and the current iterator are the ones the first call left.  But
    every [next] on the valid wrapper sets the flag, whatever the pull
    gives.  So after a pull the next [__iter__] does not keep the current
    iterator: when the pull failed, the orchestrator is shut down and
    [__iter__] raises; otherwise [__iter__] starts a round, with the seeding
    step (the pending seed, or a fresh one when none is set, or nothing when
    the seed is consumed), the hook of the reading service when there is
    one, and a new iterator drawn from the graph in place of the current
    one. *)
Theorem second_iter_before_first_pull :
  forall (dl dl1 : Loader) (it : DataLoader2Iterator),
    __iter__ dl = (dl1, Ok it) ->
    _reset_iter dl1 = false
    /\ __iter__ dl1
       = (with_valid_iterator_id (Some (iterator_id it + 1)) dl1,
          Ok {| iterator_id := iterator_id it + 1 |})
    /\ (forall s, _reset_iter (fst (seed s dl1)) = false)
    /\ (forall p, is_valid p dl1 = false -> _reset_iter (fst (__next__ p dl1)) = false)
    /\ _reset_iter (fst (__next__ it dl1)) = true
    /\ (_reset_iter dl = true ->
        let dl2 := fst (__next__ it dl1) in
        (_terminated dl2 = true ->
         __iter__ dl2 = (dl2, Raise (RuntimeError msg_terminated)))
        /\ (_terminated dl2 = false ->
            exists (dl3 : Loader) (dp3 : DataPipe),
              __iter__ dl2 = (dl3, Ok {| iterator_id := iterator_id it + 1 |})
              /\ datapipe dl3 = Some dp3
              /\ _datapipe_iter dl3 = Some (iter dp3)
              /\ _reset_iter dl3 = false
              /\ calls dl3
                 = calls dl2
                   ++ (if truthy (_seed dl2)
                       then if _reset_seed dl2 then [call_seed (_seed dl2)] else []
                       else [call_seed None])
                   ++ match reading_service dl2 with
                      | Some _ => [call_initialize_iteration]
                      | None => []
                      end
                   ++ [call_iter])).
Proof.
  intros dl dl1 it H.
  destruct (iter_issues dl dl1 it H) as (Hid & Hv & Hr & Ht & Hd).
  destruct (datapipe dl1) as [dp|] eqn:Edp; [|congruence].
  assert (Hnext : next_iterator_id dl1 = iterator_id it + 1).
  { unfold next_iterator_id. rewrite Hv. reflexivity. }
  assert (Hvalid : is_valid it dl1 = true).
  { unfold is_valid. rewrite Hv, Z.eqb_refl. reflexivity. }
  split; [exact Hr|].
  split; [rewrite (iter_in_progress dl1 dp Edp Ht Hr), Hnext; reflexivity|].
  split.
  { intros s. destruct (seed_fields s dl1) as (_ & _ & H2 & _). congruence. }
  split.
  { intros p Hp. destruct (next_fields p dl1) as (_ & _ & _ & _ & H2 & _).
    rewrite H2, Hp. exact Hr. }
  destruct (next_fields it dl1) as (Hv2 & Hd2 & _ & _ & Hr2 & _).
  rewrite Hvalid in Hr2.
  split; [exact Hr2|].
  intros Hround dl2. fold dl2 in Hv2, Hd2, Hr2.
  rewrite Edp in Hd2.
  split.
  - intros Ht2. unfold __iter__. rewrite Hd2, Ht2. reflexivity.
  - intros Ht2.
    assert (Ha : reading_service dl2 = None \/ _adapted dl2 = true).
    { apply next_keeps_adaptation. exact (iter_settles_adaptation dl dl1 it H Hround). }
    destruct (iter_new_round dl2 dp Hd2 Ht2 Hr2 Ha) as (dl3 & dp3 & Hi & Hrest).
    exists dl3, dp3. split; [|exact Hrest].
    rewrite Hi. unfold next_iterator_id. rewrite Hv2, Hv. reflexivity.
Qed.

Lemma truthy_nonzero (z : Z) : z <> 0 -> truthy (Some z) = true.
Proof. intros H. cbn. apply Z.eqb_neq in H. rewrite H. reflexivity. Qed.

Lemma apply_seed_none (dl : Loader) :
  _seed dl = None -> apply_seed dl = (seed_generator_seed None dl, Ok tt).
Proof. intros H. unfold apply_seed. rewrite H. reflexivity. Qed.

Lemma apply_seed_pending (dl : Loader) (z : Z) :
  _seed dl = Some z -> z <> 0 -> _reset_seed dl = true ->
  apply_seed dl = (with_reset_seed false (seed_generator_seed (Some z) dl), Ok tt).
Proof.
  intros H Hz Hp. unfold apply_seed. rewrite H, (truthy_nonzero z Hz), Hp. reflexivity.
Qed.

Lemma apply_seed_consumed (dl : Loader) (z : Z) :
  _seed dl = Some z -> z <> 0 -> _reset_seed dl = false -> apply_seed dl = (dl, Ok tt).
Proof.
  intros H Hz Hp. unfold apply_seed. rewrite H, (truthy_nonzero z Hz), Hp. reflexivity.
Qed.

(** A seed of [0] is false as a condition: it is treated as no seed. *)
Lemma apply_seed_zero (dl : Loader) :
  _seed dl = Some 0 -> apply_seed dl = (seed_generator_seed None dl, Ok tt).
Proof. intros H. unfold apply_seed. rewrite H. reflexivity. Qed.

(** After the seeding, the rest of [__iter__] only adapts the graph, starts
    the iteration and draws the iterator. *)
Lemma prepare_then_issue (dp : DataPipe) (dl : Loader) :
  let dl' := fst (bind (prepare_iterator dp) (fun _ => issue_iterator) dl) in
  exists rest : list call,
    calls dl' = calls dl ++ rest
    /\ Forall (fun c => is_setup_call c = true) rest
    /\ _reset_seed dl' = _reset_seed dl
    /\ (reading_service dl = None -> _seed_generator dl' = _seed_generator dl).
Proof.
  unfold prepare_iterator, issue_iterator, adapt, start_iteration, draw_iterator,
    next_iterator_id, bind, ret, read, assign, log.
  branches; eexists; cbn; rewrite <- ?app_assoc;
    (split;
     [first [reflexivity | symmetry; apply app_nil_r]
     |split;
      [repeat constructor
      |split; [reflexivity | intros; try discriminate; reflexivity]]]).
Qed.

Lemma bind_after {A B C : Type} (m : M A) (k1 : A -> M B) (k2 : B -> M C)
  (dl dl0 : Loader) (a : A) :
  m dl = (dl0, Ok a) -> bind (bind m k1) k2 dl = bind (k1 a) k2 dl0.
Proof. intros H. unfold bind. rewrite H. reflexivity. Qed.

Lemma iter_new_session (dl : Loader) (dp : DataPipe) :
  datapipe dl = Some dp -> _terminated dl = false -> _reset_iter dl = true ->
  __iter__ dl
  = bind (bind apply_seed (fun _ => prepare_iterator dp)) (fun _ => issue_iterator) dl.
Proof. intros Hd Ht Hr. unfold __iter__. rewrite Hd, Ht, Hr. reflexivity. Qed.

(** C6, as the code has it, for seeds other than [0]: when a session
    starts with [_reset_iter] set, the first call [__iter__] makes is the
    seeding — with the user's seed when one is pending, which is then marked
    consumed, with a fresh seed when none was ever set — and only then come
    the reading service's hooks and the drawing of the iterator.  When the
    user's seed was already consumed, the generator is not reseeded at all. *)
Theorem new_session_seeds_first :
  forall (dl : Loader) (dp : DataPipe),
    datapipe dl = Some dp -> _terminated dl = false -> _reset_iter dl = true ->
    let dl' := fst (__iter__ dl) in
    exists rest : list call,
      Forall (fun c => is_setup_call c = true) rest
      /\ (_seed dl = None ->
          calls dl' = calls dl ++ call_seed None :: rest
          /\ (reading_service dl = None ->
              _seed_generator dl' = sg_seed (_seed_generator dl) None))
      /\ (forall z, _seed dl = Some z -> z <> 0 -> _reset_seed dl = true ->
          calls dl' = calls dl ++ call_seed (Some z) :: rest
          /\ _reset_seed dl' = false
          /\ (reading_service dl = None ->
              _seed_generator dl' = sg_seed (_seed_generator dl) (Some z)))
      /\ (forall z, _seed dl = Some z -> z <> 0 -> _reset_seed dl = false ->
          calls dl' = calls dl ++ rest
          /\ (reading_service dl = None -> _seed_generator dl' = _seed_generator dl)).
Proof.
  intros dl dp Hd Ht Hr. cbn zeta. rewrite (iter_new_session dl dp Hd Ht Hr).
  destruct (_seed dl) as [z|] eqn:Es.
  - destruct (Z.eq_dec z 0) as [Hz|Hz].
    + exists []. split; [constructor|]. split; [intro; discriminate|].
      split; intros z' Hz' Hnz; inversion Hz'; subst; contradiction.
    + destruct (_reset_seed dl) eqn:Ep.
      * pose proof (apply_seed_pending dl z Es Hz Ep) as Ha.
        destruct (prepare_then_issue dp (with_reset_seed false (seed_generator_seed (Some z) dl)))
          as (rest & Hc & Hf & Hp & Hg).
        exists rest. split; [exact Hf|]. split; [intro; discriminate|]. split.
        -- intros z' Hz' _ _. inversion Hz'; subst z'.
           rewrite (bind_after _ _ _ _ _ _ Ha).
           cbn zeta in Hc, Hp, Hg. rewrite Hc, Hp. cbn.
           rewrite <- app_assoc. repeat split; auto.
        -- intros z' _ _ Hfalse. discriminate.
      * pose proof (apply_seed_consumed dl z Es Hz Ep) as Ha.
        destruct (prepare_then_issue dp dl) as (rest & Hc & Hf & Hp & Hg).
        exists rest. split; [exact Hf|]. split; [intro; discriminate|]. split.
        -- intros z' _ _ Hfalse. discriminate.
        -- intros z' _ _ _.
           rewrite (bind_after _ _ _ _ _ _ Ha).
           cbn zeta in Hc, Hg. split; auto.
  - pose proof (apply_seed_none dl Es) as Ha.
    destruct (prepare_then_issue dp (seed_generator_seed None dl))
      as (rest & Hc & Hf & Hp & Hg).
    exists rest. split; [exact Hf|]. split; [|split; intros; discriminate].
    intros _. rewrite (bind_after _ _ _ _ _ _ Ha).
    cbn zeta in Hc, Hg. rewrite Hc. cbn. rewrite <- app_assoc. split; auto.
Qed.

(** ** Seeds *)

Lemma seed_rejected (s : Z) (dl : Loader) :
  _UINT64_UPPER_BOUND <= s -> seed s dl = (dl, Raise (ValueError (msg_seed s))).
Proof.
  intros H. unfold seed. destruct (s >=? _UINT64_UPPER_BOUND) eqn:E; [reflexivity|].
  rewrite Z.geb_leb in E. apply Z.leb_gt in E. lia.
Qed.

(** Every seed below the bound is stored, the negative ones too: there is no
    test against [0]. *)
Lemma seed_stored (s : Z) (dl : Loader) :
  s < _UINT64_UPPER_BOUND ->
  seed s dl = (with_reset_seed true (with_seed (Some s) dl), Ok tt).
Proof.
  intros H. unfold seed. destruct (s >=? _UINT64_UPPER_BOUND) eqn:E; [|reflexivity].
  rewrite Z.geb_leb in E. apply Z.leb_le in E. lia.
Qed.

(** ** Checkpoints *)

(** C5, as the code has it: [state_dict] always returns a dictionary.  Its
    first entry is the serialized graph as it was before the reading service
    adapted it; its second entry is what a checkpointable reading service
    returns from [checkpoint], and [None] both when no reading service is
    attached and when the attached one is not checkpointable. *)
Theorem state_dict_never_fails :
  forall dl : Loader,
    exists (dl' : Loader) (st : StateDict),
      state_dict dl = (dl', Ok st)
      /\ SERIALIZED_DATAPIPE_KEY_NAME st
         = serialize_datapipe (_datapipe_before_reading_service_adapt dl)
      /\ READING_SERVICE_STATE_KEY_NAME st
         = match reading_service dl with
           | Some rs => if is_checkpointable rs then Some (snd (checkpoint rs)) else None
           | None => None
           end.
Proof.
  intros dl. unfold state_dict, log.
  destruct (reading_service dl) as [rs|]; [destruct (is_checkpointable rs)|].
  - destruct (checkpoint rs) as [rs' b]. cbn. eauto.
  - cbn. eauto.
  - cbn. eauto.
Qed.

Lemma iter_unadapted (dl : Loader) : unadapted dl -> unadapted (fst (__iter__ dl)).
Proof.
  intros [Hs Hd]. unfold_iter.
  branches; split; cbn; congruence.
Qed.

Lemma load_state_dict_unadapted (st : StateDict) (dl : Loader) :
  unadapted dl -> unadapted (fst (load_state_dict st dl)).
Proof.
  intros [Hs Hd]. unfold load_state_dict.
  branches; split; cbn; auto.
Qed.

Lemma step_unadapted (c : Handle) (o : op) :
  unadapted (dataloader c) -> unadapted (dataloader (step c o)).
Proof.
  intros Hu. destruct o; cbn [step].
  - pose proof (iter_unadapted _ Hu) as H.
    destruct (__iter__ (dataloader c)) as [dl' [it|e]]; exact H.
  - destruct (nth_error (issued c) k) as [it|]; [|exact Hu].
    destruct Hu as [Hs Hd].
    destruct (next_fields it (dataloader c)) as (_ & H1 & H2 & _ & _ & H3).
    split; cbn [dataloader]; [auto|congruence].
  - destruct Hu as [Hs Hd].
    destruct (seed_fields s (dataloader c)) as (_ & _ & _ & H1 & H2 & H3).
    split; cbn [dataloader]; congruence.
  - destruct Hu as [Hs Hd].
    destruct (shutdown_fields (dataloader c)) as (_ & _ & _ & H1 & H2 & _ & H3).
    split; cbn [dataloader]; [auto|congruence].
  - destruct Hu as [Hs Hd].
    destruct (state_dict_fields (dataloader c)) as (_ & _ & _ & _ & _ & H).
    cbn [dataloader]. rewrite (H Hs). split; assumption.
  - apply load_state_dict_unadapted, Hu.
Qed.

Lemma iter_draws (dl : Loader) (g : DataPipe) :
  reading_service dl = None -> datapipe dl = Some g ->
  _terminated dl = false -> _reset_iter dl = true ->
  exists (dl' : Loader) (it : DataLoader2Iterator),
    __iter__ dl = (dl', Ok it)
    /\ _datapipe_iter dl' = Some (iter g)
    /\ is_valid it dl' = true.
Proof.
  intros Hs Hd Ht Hr. unfold_iter. rewrite Hd, Ht, Hr. cbn.
  branches; do 2 eexists; (split; [reflexivity|]); split; try reflexivity;
    unfold is_valid; cbn; apply Z.eqb_refl.
Qed.

(** What a pull through the valid wrapper gives depends on the current
    iterator alone. *)
Lemma next_same_iterator (itA itB : DataLoader2Iterator) (dlA dlB : Loader) :
  is_valid itA dlA = true -> is_valid itB dlB = true ->
  _datapipe_iter dlA = _datapipe_iter dlB ->
  snd (__next__ itA dlA) = snd (__next__ itB dlB)
  /\ _datapipe_iter (fst (__next__ itA dlA)) = _datapipe_iter (fst (__next__ itB dlB))
  /\ is_valid itA (fst (__next__ itA dlA)) = true
  /\ is_valid itB (fst (__next__ itB dlB)) = true.
Proof.
  intros HA HB Hi.
  destruct (next_fields itA dlA) as (HvA & _).
  destruct (next_fields itB dlB) as (HvB & _).
  rewrite (is_valid_unchanged itA dlA _ HvA), (is_valid_unchanged itB dlB _ HvB).
  split; [|split; [|split; assumption]];
    unfold __next__, advance, shutdown, finalize_all_if_present,
      finalize_iteration_if_present, log;
    rewrite HA, HB; cbn; rewrite Hi;
    branches; reflexivity.
Qed.

Lemma pull_same_iterator (n : nat) :
  forall (itA itB : DataLoader2Iterator) (dlA dlB : Loader),
    is_valid itA dlA = true -> is_valid itB dlB = true ->
    _datapipe_iter dlA = _datapipe_iter dlB ->
    snd (pull n itA dlA) = snd (pull n itB dlB).
Proof.
  induction n as [|n IH]; intros itA itB dlA dlB HA HB Hi; [reflexivity|].
  cbn [pull].
  destruct (next_same_iterator itA itB dlA dlB HA HB Hi) as (Hr & Hi' & HA' & HB').
  destruct (__next__ itA dlA) as [dlA1 rA], (__next__ itB dlB) as [dlB1 rB].
  cbn [fst snd] in *.
  specialize (IH itA itB dlA1 dlB1 HA' HB' Hi').
  destruct (pull n itA dlA1) as [dlA2 rsA], (pull n itB dlB1) as [dlB2 rsB].
  cbn [snd] in *. congruence.
Qed.

(** C4, as the code has it: without a reading service the round trip
    holds.  Take an orchestrator built without one, in any state a client
    can bring it to between two sessions, and a codec that gives back the
    graph it was given.  Then [state_dict] followed by [from_state] gives an
    orchestrator whose next session yields, pull for pull, what the next
    session of the original yields. *)
Theorem checkpoint_restore_without_backend :
  forall (dp g : DataPipe) (fns : option (adapter_arg DataPipe)) (ops : list op),
    let dl := dataloader (run ops (fresh_client (__init__ (Some dp) fns None))) in
    _reset_iter dl = true ->
    _terminated dl = false ->
    datapipe dl = Some g ->
    deserialize_datapipe (serialize_datapipe (Some g)) = Some g ->
    iter (wrap_datapipe_for_serialization g) = iter g ->
    exists (st : StateDict) (itA itB : DataLoader2Iterator) (dlA dlB : Loader),
      state_dict dl = (dl, Ok st)
      /\ __iter__ dl = (dlA, Ok itA)
      /\ __iter__ (from_state st None) = (dlB, Ok itB)
      /\ forall n, snd (pull n itA dlA) = snd (pull n itB dlB).
Proof.
  intros dp g fns ops dl Hr Ht Hd Hcodec Hwrap.
  assert (Hu : unadapted dl).
  { subst dl. apply (run_invariant (fun c => unadapted (dataloader c))).
    - intros c o. apply step_unadapted.
    - split; reflexivity. }
  destruct Hu as [Hs Hsnap].
  destruct (iter_draws dl g Hs Hd Ht Hr) as (dlA & itA & HiA & HitA & HvA).
  set (st := {| SERIALIZED_DATAPIPE_KEY_NAME := serialize_datapipe (Some g);
                READING_SERVICE_STATE_KEY_NAME := None |}).
  assert (Hst : state_dict dl = (dl, Ok st)).
  { unfold state_dict. rewrite Hs, <- Hsnap, Hd. reflexivity. }
  set (restored := from_state st None : Loader).
  assert (Hd' : datapipe restored = Some (wrap_datapipe_for_serialization g)).
  { unfold restored, from_state, st. cbn. rewrite Hcodec. reflexivity. }
  destruct (iter_draws restored (wrap_datapipe_for_serialization g)
              eq_refl Hd' eq_refl eq_refl) as (dlB & itB & HiB & HitB & HvB).
  exists st, itA, itB, dlA, dlB. repeat split; try assumption.
  intros n. apply pull_same_iterator; try assumption. congruence.
Qed.

End Properties.

(** * The methods on concrete inputs *)

Import Demo.

(** ** Where the code and the description part *)

(** C2 fails as stated.  A session is started on a three-element graph and
    one element is pulled.  The pull has set [_reset_iter], so the second
    [__iter__] reseeds the generator, runs [initialize_iteration] again and
    draws a new iterator over the whole graph, instead of keeping the
    iterator that has two elements left. *)
Lemma pull_sets_reset_iter :
  let dl1 := started (loader three (Some plain)) in
  let dl2 := fst (__next__ first dl1) in
  let dl3 := started dl2 in
  _reset_iter dl1 = false
  /\ snd (__next__ first dl1) = Ok b1
  /\ _reset_iter dl2 = true
  /\ _datapipe_iter dl2 = Some [emit b2; emit b3]
  /\ _datapipe_iter dl3 = Some three
  /\ calls dl3 = calls dl2 ++ [call_seed None; call_initialize_iteration; call_iter].
Proof. vm_compute. repeat split; reflexivity. Qed.

(** C3 fails as stated.  The graph gives one element and then asks for a
    pause.  The second pull raises [StopIteration] and sets [_reset_iter],
    but the reading service has seen no [finalize_iteration]. *)
Lemma pause_skips_finalize_iteration :
  let dl1 := pulled 1 (loader with_pause (Some plain)) in
  let dl2 := fst (__next__ first dl1) in
  snd (__next__ first dl1) = Raise StopIteration
  /\ _reset_iter dl2 = true
  /\ option_map hooks (reading_service dl2)
     = Some [call_initialize; call_initialize_iteration]
  /\ calls dl2
     = [call_seed None; call_initialize; call_initialize_iteration; call_iter;
        call_next; call_next].
Proof. vm_compute. repeat split; reflexivity. Qed.

(** C4 fails as stated.  The user seeds the orchestrator with 5, runs one
    session to the end and takes a checkpoint.  The original, continued,
    still draws from the generator seeded with 5.  The dictionary holds no
    seed: the orchestrator restored from it, over a reading service
    configured like the original's, seeds its generator afresh.  The reading
    service shuffles by the seed, and the two sessions differ. *)
Lemma restored_session_differs :
  let original := pulled 4 (seeded 5 (loader three (Some shuffling))) in
  exists st : StateDict,
    snd (state_dict original) = Ok st
    /\ snd (pull 4 second (started (fst (state_dict original))))
       = [Ok b3; Ok b1; Ok b2; Raise StopIteration]
    /\ snd (pull 4 first (started (from_state st (Some shuffling))))
       = [Ok b1; Ok b2; Ok b3; Raise StopIteration]
    /\ _seed (from_state st (Some shuffling) : DL) = None.
Proof.
  exists {| SERIALIZED_DATAPIPE_KEY_NAME := serialize (Some three);
            READING_SERVICE_STATE_KEY_NAME := Some [Byte.x2a] |}.
  vm_compute. repeat split; reflexivity.
Qed.

(** C5 fails as stated.  With a reading service that is not checkpointable
    [state_dict] raises nothing: it returns the dictionary, with [None] as
    the reading service's state, and calls no hook. *)
Lemma state_dict_of_plain_service :
  state_dict (loader three (Some plain))
  = (loader three (Some plain),
     Ok {| SERIALIZED_DATAPIPE_KEY_NAME := serialize (Some three);
           READING_SERVICE_STATE_KEY_NAME := None |}).
Proof. reflexivity. Qed.

(** C6 fails as stated.  The user's seed 5 is applied when the first session
    starts.  When the second session starts, [_reset_iter] is set, yet the
    generator is not reseeded, neither with 5 nor with a fresh seed. *)
Lemma consumed_seed_is_not_applied_again :
  let dl1 := pulled 4 (seeded 5 (loader three (Some plain))) in
  let dl2 := started dl1 in
  _reset_iter dl1 = true
  /\ calls dl1
     = [call_seed (Some 5); call_initialize; call_initialize_iteration; call_iter;
        call_next; call_next; call_next; call_next; call_finalize_iteration]
  /\ calls dl2 = calls dl1 ++ [call_initialize_iteration; call_iter]
  /\ _seed_generator dl2 = _seed_generator dl1.
Proof. vm_compute. repeat split; reflexivity. Qed.

(** The seed [0] is below the bound and is stored, but [__iter__] tests the
    stored seed for truth: the generator gets a fresh seed, and the seed [0]
    stays pending for ever. *)
Example zero_seed_is_dropped :
  let dl1 := started (seeded 0 (loader three (Some plain))) in
  _seed dl1 = Some 0
  /\ _reset_seed dl1 = true
  /\ calls dl1 = [call_seed None; call_initialize; call_initialize_iteration; call_iter]
  /\ root (_seed_generator dl1) = 42.
Proof. vm_compute. repeat split; reflexivity. Qed.

(** C7: the seed [-1] is not an unsigned 64-bit integer, yet [seed] accepts
    it, and the next session seeds the generator with it. *)
Theorem negative_seed_is_stored :
  seed (-1) (loader three None)
  = (with_reset_seed true (with_seed (Some (-1)) (loader three None)), Ok tt)
  /\ calls (started (seeded (-1) (loader three None)))
     = [call_seed (Some (-1)); call_iter].
Proof. split; reflexivity. Qed.

(** C8: the graph gives one element and then fails.  The failing pull runs
    [shutdown]: both hooks are called and [_terminated] is set, and the
    error is raised again.  But the pull had set [_reset_iter] before
    [shutdown] looked at it, so the iterator is not discarded, and the next
    pull through the same wrapper still gives an element. *)
Theorem failed_pull_keeps_iterator :
  let dl1 := pulled 1 (loader with_crash (Some plain)) in
  let dl2 := fst (__next__ first dl1) in
  snd (__next__ first dl1) = Raise (OtherException "IOError")
  /\ _terminated dl2 = true
  /\ option_map hooks (reading_service dl2)
     = Some [call_initialize; call_initialize_iteration;
             call_finalize_iteration; call_finalize]
  /\ _datapipe_iter dl2 = Some [emit b2]
  /\ snd (__next__ first dl2) = Ok b2.
Proof. vm_compute. repeat split; reflexivity. Qed.

(** ** The theorems at work *)

Lemma stale_iterator_is_refused_witness :
  let dl := dataloader (run [OpIter; OpNext 0; OpIter]
                          (fresh_client (loader three (Some plain)))) in
  is_valid first dl = false
  /\ snd (__next__ first dl) = Raise (RuntimeError msg_invalidated).
Proof.
  intros dl.
  assert (Hstale : is_valid first dl = false) by (vm_compute; reflexivity).
  split; [exact Hstale|].
  exact (proj1 (proj2 (stale_iterator_is_refused (Some three) None (Some plain)
                         [OpIter; OpNext 0; OpIter]) first Hstale)).
Defined.

Lemma second_iter_before_first_pull_witness :
  let dl := loader three (Some plain) in
  __iter__ dl = (started dl, Ok first)
  /\ __iter__ (started dl)
     = (with_valid_iterator_id (Some (iterator_id first + 1)) (started dl),
        Ok {| iterator_id := iterator_id first + 1 |}).
Proof.
  intros dl.
  assert (Hiter : __iter__ dl = (started dl, Ok first)) by (vm_compute; reflexivity).
  split; [exact Hiter|].
  exact (proj1 (proj2 (second_iter_before_first_pull dl (started dl) first Hiter))).
Defined.

Lemma pause_ends_session_without_finalize_witness :
  let dl := pulled 1 (loader with_pause (Some plain)) in
  is_valid first dl = true
  /\ _datapipe_iter dl = Some [pause; emit b2]
  /\ next_item [pause; emit b2] = ([emit b2], Raise PauseIteration)
  /\ reading_service (fst (__next__ first dl)) = reading_service dl.
Proof.
  intros dl.
  assert (Hv : is_valid first dl = true) by (vm_compute; reflexivity).
  assert (Hi : _datapipe_iter dl = Some [pause; emit b2]) by (vm_compute; reflexivity).
  assert (Hn : next_item [pause; emit b2] = ([emit b2], Raise PauseIteration))
    by reflexivity.
  split; [exact Hv|]. split; [exact Hi|]. split; [exact Hn|].
  exact (proj1 (proj2 (proj2 (pause_ends_session_without_finalize first dl
                                [pause; emit b2] [emit b2] Hv Hi Hn)))).
Defined.

Lemma exhausted_iterator_finalizes_again_witness :
  let dl := pulled 3 (loader three (Some plain)) in
  is_valid first dl = true
  /\ _datapipe_iter dl = Some []
  /\ next_item ([] : list item) = ([], Raise StopIteration)
  /\ snd (pull 3 first dl) = repeat (Raise StopIteration) 3.
Proof.
  intros dl.
  assert (Hv : is_valid first dl = true) by (vm_compute; reflexivity).
  assert (Hi : _datapipe_iter dl = Some []) by (vm_compute; reflexivity).
  assert (Hn : next_item ([] : list item) = ([], Raise StopIteration)) by reflexivity.
  split; [exact Hv|]. split; [exact Hi|]. split; [exact Hn|].
  exact (proj1 (exhausted_iterator_finalizes_again 2 first dl [] [] Hv Hi Hn Hn)).
Defined.

Lemma new_session_seeds_first_witness :
  let dl := seeded 5 (loader three (Some plain)) in
  datapipe dl = Some three /\ _terminated dl = false /\ _reset_iter dl = true
  /\ exists rest : list call,
       Forall (fun c => is_setup_call c = true) rest
       /\ calls (fst (__iter__ dl)) = calls dl ++ call_seed (Some 5) :: rest.
Proof.
  intros dl.
  assert (Hd : datapipe dl = Some three) by reflexivity.
  assert (Ht : _terminated dl = false) by reflexivity.
  assert (Hr : _reset_iter dl = true) by reflexivity.
  split; [exact Hd|]. split; [exact Ht|]. split; [exact Hr|].
  destruct (new_session_seeds_first dl three Hd Ht Hr) as (rest & Hf & _ & Hp & _).
  exists rest. split; [exact Hf|].
  assert (Hnz : 5 <> 0) by discriminate.
  exact (proj1 (Hp 5 eq_refl Hnz eq_refl)).
Defined.

Lemma checkpoint_restore_without_backend_witness :
  let dl := dataloader (run [OpIter; OpNext 0; OpNext 0; OpNext 0; OpNext 0]
                          (fresh_client (__init__ (Some three) None None))) in
  _reset_iter dl = true /\ _terminated dl = false /\ datapipe dl = Some three
  /\ deserialize_datapipe (serialize_datapipe (Some three)) = Some three
  /\ exists (st : StateDict) (itA itB : DataLoader2Iterator) (dlA dlB : DL),
       state_dict dl = (dl, Ok st)
       /\ __iter__ dl = (dlA, Ok itA)
       /\ __iter__ (from_state st None) = (dlB, Ok itB)
       /\ forall n, snd (pull n itA dlA) = snd (pull n itB dlB).
Proof.
  intros dl.
  assert (Hr : _reset_iter dl = true) by (vm_compute; reflexivity).
  assert (Ht : _terminated dl = false) by (vm_compute; reflexivity).
  assert (Hd : datapipe dl = Some three) by (vm_compute; reflexivity).
  assert (Hc : deserialize_datapipe (serialize_datapipe (Some three)) = Some three)
    by (vm_compute; reflexivity).
  split; [exact Hr|]. split; [exact Ht|]. split; [exact Hd|]. split; [exact Hc|].
  exact (checkpoint_restore_without_backend three three None
           [OpIter; OpNext 0; OpNext 0; OpNext 0; OpNext 0] Hr Ht Hd Hc eq_refl).
Defined.

(** * Further properties of the orchestrator *)

Section Lifecycle.

Context {DataPipe Iter Elem SeedGen RS Attr : Type}.
Context {graph_ops : DataPipeOps DataPipe Iter Elem}.
Context {seed_ops : SeedGeneratorOps SeedGen}.
Context {service_ops : ReadingServiceInterface RS DataPipe SeedGen}.
Context {attr_ops : IteratorAttributes Iter Attr}.

Abbreviation Loader' := (@DataLoader2 DataPipe Iter SeedGen RS).
Abbreviation Handle' := (@Client DataPipe Iter SeedGen RS).

Ltac split_case :=
  match goal with
  | |- context [match ?x with _ => _ end] =>
      lazymatch x with
      | context [match _ with _ => _ end] => fail
      | _ => destruct x eqn:?
      end
  end.

Ltac split_cases := repeat (split_case; cbn in *; try congruence).

Ltac open_iter :=
  unfold __iter__, new_iteration, prepare_iterator, issue_iterator, apply_seed, adapt,
    start_iteration, draw_iterator, seed_generator_seed, next_iterator_id, bind, ret,
    read, assign, log.

Ltac open_next :=
  unfold __next__, advance, shutdown, finalize_all_if_present,
    finalize_iteration_if_present, log.

Ltac count_calls H :=
  unfold adaptations in *; rewrite ?filter_app, ?length_app; cbn; rewrite ?H; cbn; lia.

Lemma start_calls_app (l l' : list call) :
  start_calls (l ++ l') = start_calls l ++ start_calls l'.
Proof. apply filter_app. Qed.

(** ** Adaptation happens once *)

Lemma iter_adapted_once (dl : Loader') : adapted_once dl -> adapted_once (fst (__iter__ dl)).
Proof.
  unfold adapted_once. intros H. open_iter.
  split_cases; destruct (_adapted dl); try discriminate; count_calls H.
Qed.

Lemma next_adapted_once (it : DataLoader2Iterator) (dl : Loader') :
  adapted_once dl -> adapted_once (fst (__next__ it dl)).
Proof.
  unfold adapted_once. intros H. open_next.
  split_cases; count_calls H.
Qed.

Lemma step_adapted_once (c : Handle') (o : op) :
  adapted_once (dataloader c) -> adapted_once (dataloader (step c o)).
Proof.
  intros H. destruct o; cbn [step].
  - pose proof (iter_adapted_once _ H) as H'.
    destruct (__iter__ (dataloader c)) as [dl' [it|e]]; exact H'.
  - destruct (nth_error (issued c) k); [|exact H]. apply next_adapted_once, H.
  - unfold adapted_once in *. cbn [dataloader]. unfold seed. split_cases; exact H.
  - unfold adapted_once in *. cbn [dataloader]. open_next.
    split_cases; count_calls H.
  - unfold adapted_once in *. cbn [dataloader]. unfold state_dict, log.
    split_cases; count_calls H.
  - unfold adapted_once in *. cbn [dataloader]. unfold load_state_dict.
    split_cases; exact H.
Qed.

(** X1: whatever program runs on a newly constructed orchestrator, the
    reading service is asked to adapt the graph ([initialize] or [restore])
    at most once, and [_adapted] tells whether it was. *)
Theorem adaptation_happens_once :
  forall (dp : option DataPipe) (fns : option (adapter_arg DataPipe))
         (rs : option RS) (ops : list op),
    let dl := dataloader (run ops (fresh_client (__init__ dp fns rs))) in
    (adaptations (calls dl) <= 1)%nat
    /\ (_adapted dl = true <-> adaptations (calls dl) = 1%nat).
Proof.
  intros dp fns rs ops dl.
  assert (H : adapted_once dl).
  { subst dl. apply (run_invariant (fun c => adapted_once (dataloader c))).
    - intros c o. apply step_adapted_once.
    - reflexivity. }
  unfold adapted_once in H. rewrite H.
  destruct (_adapted dl); split; try lia; split; congruence.
Qed.

(** ** After shutdown *)

Lemma next_start_calls (it : DataLoader2Iterator) (dl : Loader') :
  start_calls (calls (fst (__next__ it dl))) = start_calls (calls dl).
Proof.
  open_next. split_cases; rewrite ?start_calls_app; cbn; rewrite ?app_nil_r; reflexivity.
Qed.

Lemma state_dict_start_calls (dl : Loader') :
  start_calls (calls (fst (state_dict dl))) = start_calls (calls dl).
Proof.
  unfold state_dict, log.
  split_cases; rewrite ?start_calls_app; cbn; rewrite ?app_nil_r; reflexivity.
Qed.

Lemma step_after_shutdown (c : Handle') (o : op) :
  closed (dataloader c) ->
  issued (step c o) = issued c
  /\ valid_iterator_id (dataloader (step c o)) = valid_iterator_id (dataloader c)
  /\ start_calls (calls (dataloader (step c o))) = start_calls (calls (dataloader c)).
Proof.
  intros Hc. destruct o; cbn [step].
  - destruct Hc as [Ht Hr]. destruct (iter_terminated (dataloader c) Ht) as [e He].
    rewrite He. repeat split; reflexivity.
  - destruct (nth_error (issued c) k) as [it|]; [|repeat split; reflexivity].
    destruct (next_fields it (dataloader c)) as (Hv & _).
    cbn [dataloader issued]. repeat split; [exact Hv|apply next_start_calls].
  - cbn [dataloader issued]. unfold seed. split_cases; repeat split; reflexivity.
  - cbn [dataloader issued]. rewrite (shutdown_closed_noop _ Hc). repeat split; reflexivity.
  - destruct (state_dict_fields (dataloader c)) as (Hv & _).
    cbn [dataloader issued]. repeat split; [exact Hv|apply state_dict_start_calls].
  - cbn [dataloader issued]. unfold load_state_dict. split_cases; repeat split; reflexivity.
Qed.

(** X2: leaving the [with] block (or calling [shutdown]) closes the
    orchestrator for good.  Whatever the client does afterwards, [__iter__]
    raises [RuntimeError], no further wrapper is handed out,
    [valid_iterator_id] stays as it was, and the generator is never seeded
    again nor the graph adapted or iterated anew. *)
Theorem no_session_after_exit :
  forall (dl : Loader') (its : list DataLoader2Iterator) (ops : list op),
    let c0 := {| dataloader := fst (__exit__ dl); issued := its |} in
    let c := run ops c0 in
    issued c = its
    /\ valid_iterator_id (dataloader c) = valid_iterator_id dl
    /\ start_calls (calls (dataloader c)) = start_calls (calls (dataloader c0))
    /\ __iter__ (dataloader c)
       = (dataloader c,
          Raise (RuntimeError (match datapipe (dataloader c) with
                               | None => msg_no_datapipe
                               | Some _ => msg_terminated
                               end))).
Proof.
  intros dl its ops c0 c.
  assert (H : closed (dataloader c) /\ issued c = issued c0
              /\ valid_iterator_id (dataloader c) = valid_iterator_id (dataloader c0)
              /\ start_calls (calls (dataloader c)) = start_calls (calls (dataloader c0))).
  { subst c.
    apply (run_invariant
             (fun c => closed (dataloader c) /\ issued c = issued c0
                       /\ valid_iterator_id (dataloader c) = valid_iterator_id (dataloader c0)
                       /\ start_calls (calls (dataloader c))
                          = start_calls (calls (dataloader c0)))).
    - intros c o (Hc & Hi & Hv & Hs).
      destruct (step_after_shutdown c o Hc) as (Hi' & Hv' & Hs').
      split; [apply step_closed, Hc|]. repeat split; congruence.
    - split; [apply shutdown_closes|]. repeat split; reflexivity. }
  destruct H as ((Ht & Hr) & Hi & Hv & Hs).
  destruct (shutdown_fields dl) as (_ & _ & Hv0 & _).
  repeat split.
  - exact Hi.
  - rewrite Hv. exact Hv0.
  - exact Hs.
  - unfold __iter__. destruct (datapipe (dataloader c)); [rewrite Ht|]; reflexivity.
Qed.

(** ** The wrapper handed out last *)

(** X3: the wrappers a newly constructed orchestrator hands out carry the
    ids 0, 1, 2, ... in the order they were handed out, and at any time the
    valid one is exactly the one handed out last. *)
Theorem last_iterator_is_the_valid_one :
  forall (dp : option DataPipe) (fns : option (adapter_arg DataPipe))
         (rs : option RS) (ops : list op),
    let c := run ops (fresh_client (__init__ dp fns rs)) in
    forall (k : nat) (it : DataLoader2Iterator),
      nth_error (issued c) k = Some it ->
      iterator_id it = Z.of_nat k
      /\ (is_valid it (dataloader c) = true <-> S k = List.length (issued c)).
Proof.
  intros dp fns rs ops c k it Hk.
  assert (Hnum : numbered c).
  { apply (run_invariant numbered); [intros; now apply step_numbered|].
    apply init_numbered. }
  destruct Hnum as [Hids Hlast].
  pose proof (Hids k it Hk) as Hid. split; [exact Hid|].
  assert (Hlt : (k < List.length (issued c))%nat).
  { apply nth_error_Some. congruence. }
  unfold is_valid. rewrite Hlast, Hid.
  destruct (List.length (issued c)) as [|n]; [lia|].
  rewrite Z.eqb_eq. lia.
Qed.

(** ** The iterator, once created *)

Lemma iter_iterator_kept (dl : Loader') : iterator_kept dl -> iterator_kept (fst (__iter__ dl)).
Proof.
  unfold iterator_kept. intros [Q K]. open_iter.
  split_cases; split; intros; cbn in *; auto; try discriminate; congruence.
Qed.

Lemma next_iterator_kept (it : DataLoader2Iterator) (dl : Loader') :
  iterator_kept dl -> iterator_kept (fst (__next__ it dl)).
Proof.
  unfold iterator_kept. intros [Q K]. open_next.
  split_cases; split; intros; cbn in *; auto; try discriminate; try congruence;
    destruct (_terminated dl); discriminate.
Qed.

Lemma step_iterator_kept (c : Handle') (o : op) :
  iterator_kept (dataloader c) -> iterator_kept (dataloader (step c o)).
Proof.
  intros H. destruct o; cbn [step].
  - pose proof (iter_iterator_kept _ H) as H'.
    destruct (__iter__ (dataloader c)) as [dl' [it|e]]; exact H'.
  - destruct (nth_error (issued c) k); [|exact H]. apply next_iterator_kept, H.
  - destruct H as [Q K]. unfold iterator_kept. cbn [dataloader]. unfold seed.
    split_cases; split; intros; cbn in *; auto.
  - destruct H as [Q K]. unfold iterator_kept. cbn [dataloader]. open_next.
    split_cases; split; intros; cbn in *; auto; try discriminate; try congruence;
      destruct (_terminated (dataloader c)); discriminate.
  - destruct H as [Q K]. unfold iterator_kept. cbn [dataloader]. unfold state_dict, log.
    split_cases; split; intros; cbn in *; auto.
  - destruct H as [Q K]. unfold iterator_kept. cbn [dataloader]. unfold load_state_dict.
    split_cases; split; intros; cbn in *; auto;
      first [congruence | exfalso; solve [apply Q; auto | apply K; auto]].
Qed.

Lemma reachable_iterator (dp : option DataPipe) (fns : option (adapter_arg DataPipe))
  (rs : option RS) (ops : list op) :
  let c := run ops (fresh_client (__init__ dp fns rs)) in
  issued c <> [] -> _terminated (dataloader c) = false ->
  exists i : Iter, _datapipe_iter (dataloader c) = Some i.
Proof.
  intros c Hi Ht.
  assert (Hk : iterator_kept (dataloader c)).
  { subst c. apply (run_invariant (fun c => iterator_kept (dataloader c))).
    - intros c o. apply step_iterator_kept.
    - split; cbn; intros; congruence. }
  assert (Hnum : numbered c).
  { apply (run_invariant numbered); [intros; now apply step_numbered|].
    apply init_numbered. }
  destruct Hnum as [_ Hlast]. destruct Hk as [_ K].
  assert (Hv : valid_iterator_id (dataloader c) <> None).
  { rewrite Hlast. destruct (issued c); [congruence|discriminate]. }
  specialize (K Hv Ht).
  destruct (_datapipe_iter (dataloader c)) as [i|]; [eauto|congruence].
Qed.

(** X4: once a newly constructed orchestrator has handed out a wrapper,
    [load_state_dict] raises [RuntimeError] and changes nothing for as long as
    the orchestrator is not shut down: also between sessions, and also after
    the iterator was exhausted. *)
Theorem load_state_dict_refused_once_iterated :
  forall (dp : option DataPipe) (fns : option (adapter_arg DataPipe))
         (rs : option RS) (ops : list op) (st : StateDict),
    let c := run ops (fresh_client (__init__ dp fns rs)) in
    issued c <> [] ->
    _terminated (dataloader c) = false ->
    load_state_dict st (dataloader c)
    = (dataloader c, Raise (RuntimeError msg_already_created)).
Proof.
  intros dp fns rs ops st c Hi Ht.
  destruct (reachable_iterator dp fns rs ops Hi Ht) as [i Hsome].
  subst c. unfold load_state_dict. rewrite Hsome. reflexivity.
Qed.

(** X5: attribute lookups on a wrapper are forwarded to the current
    iterator for as long as the orchestrator is not shut down; the wrapper's
    own [AttributeError] can only come after a shutdown. *)
Theorem getattr_reaches_the_iterator :
  forall (dp : option DataPipe) (fns : option (adapter_arg DataPipe))
         (rs : option RS) (ops : list op),
    let c := run ops (fresh_client (__init__ dp fns rs)) in
    issued c <> [] ->
    _terminated (dataloader c) = false ->
    exists i : Iter,
      _datapipe_iter (dataloader c) = Some i
      /\ forall (it : DataLoader2Iterator) (name : string),
           __getattr__ it name (dataloader c) = getattr i name.
Proof.
  intros dp fns rs ops c Hi Ht.
  destruct (reachable_iterator dp fns rs ops Hi Ht) as [i Hsome].
  exists i. split; [exact Hsome|].
  intros it name. subst c. unfold __getattr__. rewrite Hsome. reflexivity.
Qed.

(** X6: pulling through the valid wrapper after a [shutdown] that came
    before the first pull raises [TypeError]: [shutdown] has discarded the
    iterator, the wrapper is still the valid one, and [next(None)] fails.
    Nothing is pulled and no hook is called. *)
Theorem next_after_shutdown_is_type_error :
  forall (dl dl1 : Loader') (it : DataLoader2Iterator),
    __iter__ dl = (dl1, Ok it) ->
    let dl2 := fst (shutdown dl1) in
    _datapipe_iter dl2 = None
    /\ is_valid it dl2 = true
    /\ snd (__next__ it dl2) = Raise (TypeError msg_not_an_iterator)
    /\ calls (fst (__next__ it dl2)) = calls dl2
    /\ reading_service (fst (__next__ it dl2)) = reading_service dl2.
Proof.
  intros dl dl1 it H dl2.
  destruct (iter_issues dl dl1 it H) as (_ & Hv & Hr & _).
  destruct (shutdown_fields dl1) as (Ht2 & Hr2 & Hv2 & _ & _ & Hi2 & _).
  fold dl2 in Ht2, Hr2, Hv2, Hi2. rewrite Hr in Hi2.
  assert (Hval : is_valid it dl2 = true).
  { unfold is_valid. rewrite Hv2, Hv. apply Z.eqb_refl. }
  assert (Hc : closed (with_reset_iter true dl2)) by (split; cbn; auto).
  assert (Hn : __next__ it dl2
               = (with_reset_iter true dl2, Raise (TypeError msg_not_an_iterator))).
  { unfold __next__, advance. rewrite Hval. cbn -[shutdown]. rewrite Hi2.
    rewrite (shutdown_closed_noop _ Hc). reflexivity. }
  rewrite Hn. cbn. repeat split; auto.
Qed.

(** ** Checkpoints and adapters *)

(** X7: [load_state_dict] applies the adapters again.  The graph that
    [state_dict] serializes already went through the adapters once, so
    loading an orchestrator's own checkpoint back into it, before any
    iteration, leaves a graph the adapters were applied to twice. *)
Theorem load_state_dict_applies_adapters_again :
  forall (g : DataPipe) (fns : list (Adapter DataPipe)) (rs : option RS)
         (dl1 : Loader') (st : StateDict),
    let dl := __init__ (Some g) (Some (adapter_iterable fns)) rs in
    state_dict dl = (dl1, Ok st) ->
    deserialize_datapipe (serialize_datapipe (datapipe dl)) = datapipe dl ->
    let dl2 := fst (load_state_dict st dl1) in
    snd (load_state_dict st dl1) = Ok tt
    /\ datapipe dl2
       = Some (apply_adapters fns (apply_adapters fns (wrap_datapipe_for_serialization g)))
    /\ _datapipe_before_reading_service_adapt dl2 = datapipe dl2.
Proof.
  intros g fns rs dl1 st dl Hst Hcodec.
  assert (Hser : SERIALIZED_DATAPIPE_KEY_NAME st = serialize_datapipe (datapipe dl)
                 /\ _datapipe_iter dl1 = None
                 /\ datapipe_adapter_fns dl1 = Some fns).
  { revert Hst. unfold state_dict, log. subst dl. cbn.
    split_cases; intros Hst; inversion Hst; subst; cbn; repeat split. }
  destruct Hser as (Hs & Hi & Hf).
  cbn zeta. unfold load_state_dict. rewrite Hi, Hs, Hcodec, Hf.
  subst dl. cbn. repeat split.
Qed.

(** X8: [from_state] takes any reading service.  When the checkpoint holds
    a reading-service state and the service given is not checkpointable, the
    failure comes with [__iter__]: it raises [TypeError] after it has
    reseeded the generator, hands out no wrapper, and raises again when
    called again. *)
Theorem restore_needs_checkpointable_service :
  forall (st : StateDict) (b : bytes) (g : DataPipe) (rs : RS),
    READING_SERVICE_STATE_KEY_NAME st = Some b ->
    deserialize_datapipe (SERIALIZED_DATAPIPE_KEY_NAME st) = Some g ->
    is_checkpointable rs = false ->
    let dl := from_state st (Some rs) in
    let dl1 := fst (__iter__ dl) in
    snd (__iter__ dl) = Raise (TypeError msg_not_checkpointable)
    /\ calls dl1 = [call_seed None]
    /\ _seed_generator dl1 = sg_seed SeedGenerator None
    /\ valid_iterator_id dl1 = None
    /\ reading_service dl1 = Some rs
    /\ snd (__iter__ dl1) = Raise (TypeError msg_not_checkpointable).
Proof.
  intros st b g rs Hb Hg Hc dl dl1.
  assert (H1 : __iter__ dl = (seed_generator_seed None dl,
                              Raise (TypeError msg_not_checkpointable))).
  { subst dl. unfold from_state. open_iter. cbn. rewrite Hg, Hb. cbn. rewrite Hc.
    reflexivity. }
  subst dl1. rewrite H1. cbn [fst snd].
  assert (H2 : __iter__ (seed_generator_seed None dl)
               = (seed_generator_seed None (seed_generator_seed None dl),
                  Raise (TypeError msg_not_checkpointable))).
  { subst dl. unfold from_state. open_iter. cbn. rewrite Hg, Hb. cbn. rewrite Hc.
    reflexivity. }
  rewrite H2. subst dl. unfold from_state. cbn. repeat split.
Qed.

(** ** Seeds *)

(** X9: [seed] arms the seeding again.  Whatever seed was set or consumed
    before, after [seed(s)] with a non-zero [s] below the bound the next new
    session starts by seeding the generator with [s], and marks it
    consumed. *)
Theorem seed_is_applied_at_next_session :
  forall (dl : Loader') (dp : DataPipe) (s : Z),
    datapipe dl = Some dp -> _terminated dl = false -> _reset_iter dl = true ->
    s <> 0 -> s < _UINT64_UPPER_BOUND ->
    let dl1 := fst (__iter__ (fst (seed s dl))) in
    exists rest : list call,
      Forall (fun c => is_setup_call c = true) rest
      /\ calls dl1 = calls dl ++ call_seed (Some s) :: rest
      /\ _seed dl1 = Some s
      /\ _reset_seed dl1 = false.
Proof.
  intros dl dp s Hd Ht Hr Hz Hb. cbn zeta.
  rewrite (seed_stored s dl Hb). cbn [fst].
  set (dl0 := with_reset_seed true (with_seed (Some s) dl)).
  assert (Ha : apply_seed dl0
               = (with_reset_seed false (seed_generator_seed (Some s) dl0), Ok tt)).
  { apply apply_seed_pending; auto. }
  rewrite (iter_new_session dl0 dp Hd Ht Hr), (bind_after _ _ _ _ _ _ Ha).
  destruct (prepare_then_issue dp (with_reset_seed false (seed_generator_seed (Some s) dl0)))
    as (rest & Hc & Hf & Hp & _).
  exists rest. split; [exact Hf|]. cbn zeta in Hc, Hp. rewrite Hc, Hp. cbn.
  rewrite <- app_assoc. repeat split.
  clear. unfold prepare_iterator, issue_iterator, adapt, start_iteration, draw_iterator,
    next_iterator_id, bind, ret, read, assign, log.
  split_cases; reflexivity.
Qed.

End Lifecycle.

(** * Properties of the S3 connectors *)

Module Boto3Facts.

Import Boto3.

(** ** Strings *)

Lemma split_once_app (sep : ascii) (b k : string) :
  contains sep b = false ->
  split_once sep (b ++ String sep k) = Some (b, k).
Proof.
  induction b as [|a b IH]; cbn; intros H.
  - rewrite Ascii.eqb_refl. reflexivity.
  - apply orb_false_iff in H. destruct H as [Ha Hb].
    rewrite Ha, (IH Hb). reflexivity.
Qed.

Lemma split_once_some (sep : ascii) (s x y : string) :
  split_once sep s = Some (x, y) ->
  contains sep x = false /\ s = (x ++ String sep y)%string.
Proof.
  revert x y. induction s as [|a s IH]; cbn; intros x y H; [discriminate|].
  destruct (Ascii.eqb a sep) eqn:E.
  - inversion H; subst. apply Ascii.eqb_eq in E. subst. split; reflexivity.
  - destruct (split_once sep s) as [[x' y']|]; [|discriminate].
    inversion H; subst. destruct (IH x' y eq_refl) as [Hc Hs].
    cbn. rewrite E, Hc, Hs. split; reflexivity.
Qed.

Lemma split_once_none (sep : ascii) (s : string) :
  contains sep s = false -> split_once sep s = None.
Proof.
  induction s as [|a s IH]; cbn; intros H; [reflexivity|].
  apply orb_false_iff in H. destruct H as [Ha Hs].
  rewrite Ha, (IH Hs). reflexivity.
Qed.

Lemma prefix_app (old x : string) : prefix old (old ++ x) = true.
Proof.
  induction old as [|a old IH]; cbn.
  - destruct x; reflexivity.
  - destruct (ascii_dec a a); [exact IH|congruence].
Qed.

Lemma replace_from_skip (old new o x : string) :
  replace_from old new (String.length o) (o ++ x) = replace_from old new O x.
Proof.
  induction o as [|a o IH]; cbn.
  - destruct x; reflexivity.
  - exact IH.
Qed.

(** An occurrence at the very start is replaced, and the search goes on
    behind it. *)
Lemma replace_at_start (a : ascii) (o new x : string) :
  replace (String a o) new (String a o ++ x)
  = (new ++ replace (String a o) new x)%string.
Proof.
  unfold replace.
  change (String a o ++ x)%string with (String a (o ++ x)).
  cbn [replace_from].
  change (String a (o ++ x)) with (String a o ++ x)%string.
  rewrite prefix_app.
  replace (String.length (String a o) - 1)%nat with (String.length o) by (cbn; lia).
  rewrite replace_from_skip. reflexivity.
Qed.

Lemma replace_absent (old new s : string) :
  occurs old s = false -> replace old new s = s.
Proof.
  unfold replace. induction s as [|a s IH]; intros H; [reflexivity|].
  cbn [occurs] in H. apply orb_false_iff in H. destruct H as [Hp Hs].
  cbn [replace_from]. rewrite Hp, (IH Hs). reflexivity.
Qed.

(** Deleting occurrences brings in no character that was not there. *)
Lemma contains_delete (c : ascii) (old s : string) :
  contains c s = false ->
  forall skip, contains c (replace_from old "" skip s) = false.
Proof.
  induction s as [|a s IH]; intros H skip; [reflexivity|].
  cbn [contains] in H. apply orb_false_iff in H. destruct H as [Ha Hs].
  cbn [replace_from]. destruct skip as [|k]; [|apply IH, Hs].
  destruct (prefix old (String a s)).
  - cbn. apply IH, Hs.
  - cbn. rewrite Ha. apply IH, Hs.
Qed.

(** ** From the lister to the opener *)

(** X10: a path the lister builds from a bucket and a key is taken apart
    by the opener into that bucket and that key, whenever the bucket has no
    slash in it; the key may be any string. *)
Theorem listed_path_splits_back :
  forall bucket key : string,
    contains "/" bucket = false ->
    FileOpener.bucket_and_key (FileLister.listed_path bucket key) = Ok (bucket, key).
Proof.
  intros bucket key H.
  unfold FileOpener.bucket_and_key, FileLister.listed_path, split1. cbn [append drop].
  change ("/" ++ key)%string with (String "/" key).
  rewrite (split_once_app "/" bucket key H). reflexivity.
Qed.

Section Connectors.

Context {Kwargs Masks OpenKwargs : Type}.
Context {s3 : S3Client Kwargs}.
Context {matcher : MaskMatcher Masks}.

Abbreviation Lister := (@FileLister.Boto3FileListerIterDataPipe Kwargs Masks).
Abbreviation Opener := (@FileOpener.Boto3FileOpenerIterDataPipe Kwargs OpenKwargs).

Lemma for_each_in {A B : Type} (body : A -> drained B) (xs : list A) (y : B) :
  In y (fst (for_each body xs)) -> exists x, In x xs /\ In y (fst (body x)).
Proof.
  induction xs as [|x xs IH]; cbn; intros H; [contradiction|].
  destruct (body x) as [ys [e|]] eqn:E.
  - exists x. rewrite E. auto.
  - destruct (for_each body xs) as [zs e'] eqn:E'. cbn in H.
    apply in_app_or in H. destruct H as [H|H].
    + exists x. rewrite E. auto.
    + destruct (IH H) as (x' & Hx & Hy). exists x'. auto.
Qed.

Lemma bucket_has_no_slash (root bucket prefix : string) :
  FileLister.bucket_and_prefix root = Ok (bucket, prefix) ->
  contains "/" bucket = false.
Proof.
  unfold FileLister.bucket_and_prefix, split1.
  destruct (split_once "/" (replace "s3://" "" root)) as [[x y]|] eqn:E; cbn; intros H.
  - inversion H; subst. apply (split_once_some _ _ _ _ E).
  - discriminate.
Qed.

(** X11: every path the lister yields names an object the client listed
    under one of the roots, with a key that matches the masks; and the
    opener takes the path apart into the very bucket and key it was built
    from.  So the opener, fed by the lister, never fails on the form of a
    path. *)
Theorem lister_feeds_opener :
  forall (self : Lister) (path : string),
    In path (fst (FileLister.__iter__ self)) ->
    exists (root bucket prefix key : string) (response : option (list string)),
      In root (FileLister.datapipe self)
      /\ FileLister.bucket_and_prefix root = Ok (bucket, prefix)
      /\ list_objects_v2 (FileLister.kwargs_for_connection self) bucket prefix = Ok response
      /\ In key (match response with Some l => l | None => [] end)
      /\ match_masks key (FileLister.masks self) = true
      /\ path = FileLister.listed_path bucket key
      /\ FileOpener.bucket_and_key path = Ok (bucket, key).
Proof.
  intros self path H. unfold FileLister.__iter__ in H.
  destruct (for_each_in _ _ _ H) as (root & Hroot & Hin).
  unfold FileLister.list_root in Hin.
  destruct (FileLister.bucket_and_prefix root) as [[bucket prefix]|e] eqn:Eb;
    [|contradiction].
  destruct (list_objects_v2 (FileLister.kwargs_for_connection self) bucket prefix)
    as [response|e] eqn:El; [|contradiction].
  cbn [fst] in Hin. apply in_map_iff in Hin. destruct Hin as (key & Hp & Hk).
  apply filter_In in Hk. destruct Hk as [Hk Hm].
  exists root, bucket, prefix, key, response.
  repeat split; auto.
  rewrite <- Hp. apply listed_path_splits_back.
  apply (bucket_has_no_slash _ _ _ Eb).
Qed.

(** ** Roots *)

(** X12: a root with no slash behind the scheme, such as a bare bucket
    name or [s3://] followed by one, makes the lister raise [ValueError]
    when it is iterated, before anything is yielded: the split gives one
    part where two are unpacked. *)
Theorem bare_bucket_root_raises :
  forall (name : string) (masks : Masks) (kwargs : Kwargs),
    contains "/" name = false ->
    FileLister.__iter__ (FileLister.__init__ (root_str name) masks kwargs)
    = ([], Some (ValueError (msg_not_enough 1)))
    /\ FileLister.__iter__
         (FileLister.__init__ (root_str ("s3://" ++ name)) masks kwargs)
       = ([], Some (ValueError (msg_not_enough 1))).
Proof.
  intros name masks kwargs H.
  assert (Hdel : split_once "/" (replace "s3://" "" name) = None).
  { apply split_once_none. apply contains_delete, H. }
  assert (Hpre : replace "s3://" "" ("s3://" ++ name) = replace "s3://" "" name).
  { rewrite replace_at_start. reflexivity. }
  split; unfold FileLister.__iter__, FileLister.__init__; cbn [FileLister.datapipe for_each];
    unfold FileLister.list_root, FileLister.bucket_and_prefix, split1;
    rewrite ?Hpre, Hdel; reflexivity.
Qed.

(** X13: the lister reads a root as bucket and prefix at the first slash
    behind the scheme, and the scheme may be left out: for a bucket without
    slash, [s3://bucket/prefix] and [bucket/prefix] both give the bucket and
    the prefix, provided [s3://] does not occur again in what follows the
    scheme. *)
Theorem root_is_bucket_and_prefix :
  forall bucket prefix : string,
    contains "/" bucket = false ->
    occurs "s3://" (bucket ++ String "/" prefix) = false ->
    FileLister.bucket_and_prefix ("s3://" ++ bucket ++ String "/" prefix)
    = Ok (bucket, prefix)
    /\ FileLister.bucket_and_prefix (bucket ++ String "/" prefix) = Ok (bucket, prefix).
Proof.
  intros bucket prefix Hb Ho.
  unfold FileLister.bucket_and_prefix, split1.
  rewrite replace_at_start, (replace_absent _ _ _ Ho). cbn [append].
  rewrite (split_once_app "/" bucket prefix Hb). split; reflexivity.
Qed.

(** ** The opener *)

Lemma open_uri_at_most_one (self : Opener) (u : string) :
  (exists content, FileOpener.open_uri self u = ([(u, content)], None))
  \/ (exists e, FileOpener.open_uri self u = ([], Some e)).
Proof.
  unfold FileOpener.open_uri.
  destruct (FileOpener.bucket_and_key u) as [[bucket key]|e]; [|eauto].
  destruct (get_object (FileOpener.kwargs_for_connection self) bucket key); eauto.
Qed.

(** X14: the uris of the pairs the opener yields are an initial part of
    its source, in the order of the source: one pair for each uri, holding
    the uri itself, until the source ends or an exception ends the
    iteration.  When no exception ends it, the number of pairs is [len] of
    the DataPipe. *)
Theorem opener_yields_in_order :
  forall self : Opener,
    let yielded := fst (FileOpener.__iter__ self) in
    map fst yielded = firstn (List.length yielded) (FileOpener.source_datapipe self)
    /\ (List.length yielded <= FileOpener.__len__ self)%nat
    /\ (snd (FileOpener.__iter__ self) = None ->
        List.length yielded = FileOpener.__len__ self).
Proof.
  intros self. unfold FileOpener.__iter__, FileOpener.__len__.
  induction (FileOpener.source_datapipe self) as [|u us IH]; cbn.
  - repeat split; auto.
  - destruct (open_uri_at_most_one self u) as [[content E]|[e E]]; rewrite E.
    + destruct (for_each (FileOpener.open_uri self) us) as [zs e'] eqn:E'.
      cbn in IH |- *. destruct IH as (H1 & H2 & H3).
      repeat split.
      * now rewrite H1.
      * lia.
      * intros He. now rewrite (H3 He).
    + cbn. repeat split; [lia|discriminate].
Qed.

End Connectors.

End Boto3Facts.

(** * The further properties at work *)

Import Demo2.

Lemma last_iterator_is_the_valid_one_witness :
  let c := run [OpIter; OpIter] (fresh_client (__init__ (Some three) None (Some plain))) in
  nth_error (issued c) 1 = Some second
  /\ iterator_id second = Z.of_nat 1
  /\ (is_valid second (dataloader c) = true <-> 2%nat = List.length (issued c)).
Proof.
  intros c.
  assert (Hk : nth_error (issued c) 1 = Some second) by (vm_compute; reflexivity).
  split; [exact Hk|].
  exact (last_iterator_is_the_valid_one (Some three) None (Some plain) [OpIter; OpIter]
           1%nat second Hk).
Defined.

Lemma load_state_dict_refused_once_iterated_witness :
  let c := run [OpIter; OpNext 0; OpNext 0; OpNext 0; OpNext 0]
             (fresh_client (__init__ (Some three) None (Some plain))) in
  issued c <> []
  /\ _terminated (dataloader c) = false
  /\ load_state_dict checkpoint_of_three (dataloader c)
     = (dataloader c, Raise (RuntimeError msg_already_created)).
Proof.
  intros c.
  assert (Hi : issued c <> []) by (vm_compute; discriminate).
  assert (Ht : _terminated (dataloader c) = false) by (vm_compute; reflexivity).
  split; [exact Hi|]. split; [exact Ht|].
  exact (load_state_dict_refused_once_iterated (Some three) None (Some plain)
           [OpIter; OpNext 0; OpNext 0; OpNext 0; OpNext 0] checkpoint_of_three Hi Ht).
Defined.

Lemma getattr_reaches_the_iterator_witness :
  let c := run [OpIter; OpNext 0] (fresh_client (__init__ (Some three) None (Some plain))) in
  issued c <> []
  /\ _terminated (dataloader c) = false
  /\ exists i : list item,
       _datapipe_iter (dataloader c) = Some i
       /\ forall (it : DataLoader2Iterator) (name : string),
            __getattr__ it name (dataloader c) = getattr i name.
Proof.
  intros c.
  assert (Hi : issued c <> []) by (vm_compute; discriminate).
  assert (Ht : _terminated (dataloader c) = false) by (vm_compute; reflexivity).
  split; [exact Hi|]. split; [exact Ht|].
  exact (getattr_reaches_the_iterator (Some three) None (Some plain)
           [OpIter; OpNext 0] Hi Ht).
Defined.

Lemma next_after_shutdown_is_type_error_witness :
  let dl := loader three (Some plain) in
  __iter__ dl = (started dl, Ok first)
  /\ snd (__next__ first (fst (shutdown (started dl))))
     = Raise (TypeError msg_not_an_iterator).
Proof.
  intros dl.
  assert (Hiter : __iter__ dl = (started dl, Ok first)) by (vm_compute; reflexivity).
  split; [exact Hiter|].
  exact (proj1 (proj2 (proj2 (next_after_shutdown_is_type_error dl (started dl) first
                                Hiter)))).
Defined.

Lemma load_state_dict_applies_adapters_again_witness :
  let dl := __init__ (Some [emit b1]) (Some (adapter_iterable [one_more])) None : DL in
  let st := {| SERIALIZED_DATAPIPE_KEY_NAME := serialize (Some [emit b1; emit b3]);
               READING_SERVICE_STATE_KEY_NAME := None |} in
  state_dict dl = (dl, Ok st)
  /\ deserialize_datapipe (serialize_datapipe (datapipe dl)) = datapipe dl
  /\ datapipe (fst (load_state_dict st dl))
     = Some (apply_adapters [one_more]
               (apply_adapters [one_more] (wrap_datapipe_for_serialization [emit b1]))).
Proof.
  intros dl st.
  assert (Hst : state_dict dl = (dl, Ok st)) by (vm_compute; reflexivity).
  assert (Hc : deserialize_datapipe (serialize_datapipe (datapipe dl)) = datapipe dl)
    by (vm_compute; reflexivity).
  split; [exact Hst|]. split; [exact Hc|].
  exact (proj1 (proj2 (load_state_dict_applies_adapters_again [emit b1] [one_more] None
                         dl st Hst Hc))).
Defined.

Lemma restore_needs_checkpointable_service_witness :
  READING_SERVICE_STATE_KEY_NAME checkpoint_of_three = Some [Byte.x2a]
  /\ deserialize_datapipe (SERIALIZED_DATAPIPE_KEY_NAME checkpoint_of_three) = Some three
  /\ is_checkpointable plain = false
  /\ snd (__iter__ (from_state checkpoint_of_three (Some plain)))
     = Raise (TypeError msg_not_checkpointable).
Proof.
  assert (Hb : READING_SERVICE_STATE_KEY_NAME checkpoint_of_three = Some [Byte.x2a])
    by reflexivity.
  assert (Hg : deserialize_datapipe (SERIALIZED_DATAPIPE_KEY_NAME checkpoint_of_three)
               = Some three) by (vm_compute; reflexivity).
  assert (Hc : is_checkpointable plain = false) by reflexivity.
  split; [exact Hb|]. split; [exact Hg|]. split; [exact Hc|].
  exact (proj1 (restore_needs_checkpointable_service checkpoint_of_three [Byte.x2a]
                  three plain Hb Hg Hc)).
Defined.

Lemma seed_is_applied_at_next_session_witness :
  let dl := pulled 4 (seeded 5 (loader three (Some plain))) in
  datapipe dl = Some three /\ _terminated dl = false /\ _reset_iter dl = true
  /\ 7 <> 0 /\ 7 < _UINT64_UPPER_BOUND
  /\ exists rest : list call,
       Forall (fun c => is_setup_call c = true) rest
       /\ calls (fst (__iter__ (fst (seed 7 dl)))) = calls dl ++ call_seed (Some 7) :: rest
       /\ _seed (fst (__iter__ (fst (seed 7 dl)))) = Some 7
       /\ _reset_seed (fst (__iter__ (fst (seed 7 dl)))) = false.
Proof.
  intros dl.
  assert (Hd : datapipe dl = Some three) by (vm_compute; reflexivity).
  assert (Ht : _terminated dl = false) by (vm_compute; reflexivity).
  assert (Hr : _reset_iter dl = true) by (vm_compute; reflexivity).
  assert (Hz : 7 <> 0) by discriminate.
  assert (Hb : 7 < _UINT64_UPPER_BOUND) by reflexivity.
  split; [exact Hd|]. split; [exact Ht|]. split; [exact Hr|].
  split; [exact Hz|]. split; [exact Hb|].
  exact (seed_is_applied_at_next_session dl three 7 Hd Ht Hr Hz Hb).
Defined.

Lemma listed_path_splits_back_witness :
  Boto3.contains "/" "data" = false
  /\ Boto3.FileOpener.bucket_and_key (Boto3.FileLister.listed_path "data" "train/a.txt")
     = Ok ("data", "train/a.txt").
Proof.
  assert (H : Boto3.contains "/" "data" = false) by reflexivity.
  split; [exact H|].
  exact (Boto3Facts.listed_path_splits_back "data" "train/a.txt" H).
Defined.

Lemma lister_feeds_opener_witness :
  In "s3://data/train/b.bin" (fst (Boto3.FileLister.__iter__ train_lister))
  /\ exists (root bucket prefix key : string) (response : option (list string)),
       In root (Boto3.FileLister.datapipe train_lister)
       /\ Boto3.FileLister.bucket_and_prefix root = Ok (bucket, prefix)
       /\ Boto3.list_objects_v2 (Boto3.FileLister.kwargs_for_connection train_lister)
            bucket prefix = Ok response
       /\ In key (match response with Some l => l | None => [] end)
       /\ Boto3.match_masks key (Boto3.FileLister.masks train_lister) = true
       /\ "s3://data/train/b.bin" = Boto3.FileLister.listed_path bucket key
       /\ Boto3.FileOpener.bucket_and_key "s3://data/train/b.bin" = Ok (bucket, key).
Proof.
  assert (H : In "s3://data/train/b.bin" (fst (Boto3.FileLister.__iter__ train_lister))).
  { vm_compute. right. left. reflexivity. }
  split; [exact H|].
  exact (Boto3Facts.lister_feeds_opener train_lister "s3://data/train/b.bin" H).
Defined.

Lemma bare_bucket_root_raises_witness :
  Boto3.contains "/" "my-bucket" = false
  /\ Boto3.FileLister.__iter__
       (Boto3.FileLister.__init__ (Boto3.root_str "my-bucket") ([] : list string) tt)
     = ([], Some (ValueError (Boto3.msg_not_enough 1))).
Proof.
  assert (H : Boto3.contains "/" "my-bucket" = false) by reflexivity.
  split; [exact H|].
  exact (proj1 (Boto3Facts.bare_bucket_root_raises "my-bucket" ([] : list string) tt H)).
Defined.

Lemma root_is_bucket_and_prefix_witness :
  Boto3.contains "/" "data" = false
  /\ Boto3.occurs "s3://" ("data" ++ String "/" "train/") = false
  /\ Boto3.FileLister.bucket_and_prefix ("s3://" ++ "data" ++ String "/" "train/")
     = Ok ("data", "train/").
Proof.
  assert (Hb : Boto3.contains "/" "data" = false) by reflexivity.
  assert (Ho : Boto3.occurs "s3://" ("data" ++ String "/" "train/") = false)
    by reflexivity.
  split; [exact Hb|]. split; [exact Ho|].
  exact (proj1 (Boto3Facts.root_is_bucket_and_prefix "data" "train/" Hb Ho)).
Defined.
